(** * Container draining for ECS instances in an autoscaling group

    A shallow embedding of [lambda_py/container_draining.py] and the
    properties of its drain-check-and-requeue protocol.

    Conventions of the embedding.

    - A Python [str] is a [string]; each [ascii] is one code point below 256.
    - A message is a Python [dict] with string keys: a [gmap string value].
      The handler's message is one mutable object, shared by reference with
      [publish_to_sns]; it lives in a store and is addressed by a location.
    - The four service clients, [random.randint] and the platform's float
      operations on a float count are the environment ([Env]): each client
      method is a function from its arguments to either a response or an
      exception.
    - Every observable action (a log line, [time.sleep], a client call) is
      appended to a trace, in program order; a client call is recorded when it
      is issued, whether or not it then raises.
    - Python floats are kept as exact rationals ([Q]): rounding below one
      unit in the last place is not modelled, and neither are NaN and the
      infinities. What is kept of the doubles is what changes a result: an
      [int] beyond the double range does not convert ([OverflowError]), and a
      power of two below the least subnormal is 0. Where the count itself is
      a float, its power and its sums are the platform's ([float_pow2] and
      [float_add] of the environment), whatever they round to.
      Running out of memory on a power of astronomic size is not modelled.
    - Log lines are recorded by level and message template: the interpolated
      values and the keyword context are not part of the trace.
    - [json.loads], [json.dumps] and the base64/UTF-8 decoding of the user data
      are not re-implemented: an event carries the decoded message object,
      a publish records the object that is serialised, and the EC2 client
      answers with the decoded text. *)

From Stdlib Require Import ZArith QArith Qminmax Lqa Ascii String List Lia.
From stdpp Require Import base option list strings gmap fin_maps.

Local Open Scope string_scope.
Local Open Scope Z_scope.

(** ** Python values and exceptions *)

Set Warnings "-register-all".

(** The JSON values [json.loads] yields. *)
Inductive value : Type :=
| VNone
| VBool (b : bool)
| VInt (n : Z)
| VStr (s : string)
| VList (l : list value)
| VDict (l : list (string * value))
| VFloat (x : Q).

Inductive exn : Type :=
| KeyError (key : string)
| IndexError
| TypeError
| AttributeError
| OverflowError
| ClientError (msg : string)         (* botocore.exceptions.ClientError *)
| OtherError (name : string).        (* any class that is not a ClientError *)

Inductive result (A : Type) : Type :=
| Ok (a : A)
| Raise (e : exn).
Arguments Ok {A} a.
Arguments Raise {A} e.

(** An [int] operand: [bool] is a subclass of [int]. *)
Definition as_int (v : value) : option Z :=
  match v with
  | VInt n => Some n
  | VBool b => Some (if b then 1 else 0)
  | _ => None
  end.

(** ** Strings *)

Module Str.

(** [sub in s] *)
Definition contains (sub s : string) : bool :=
  match String.index 0 sub s with
  | Some _ => true
  | None => false
  end.

(** [s.find(sub)]: the lowest index of [sub] in [s], or -1. *)
Definition find (s sub : string) : Z :=
  match String.index 0 sub s with
  | Some i => Z.of_nat i
  | None => -1
  end.

(** [c.isspace()] for the code points below 256. *)
Definition isspace (c : ascii) : bool :=
  let n := nat_of_ascii c in
  ((9 <=? n)%nat && (n <=? 13)%nat)
  || ((28 <=? n)%nat && (n <=? 32)%nat)
  || (n =? 133)%nat || (n =? 160)%nat.

(** The word being read is kept reversed in [cur]. *)
Fixpoint split_go (cur : list ascii) (s : string) : list string :=
  match s with
  | EmptyString =>
      match cur with
      | [] => []
      | _ => [string_of_list_ascii (rev cur)]
      end
  | String c s' =>
      if isspace c then
        match cur with
        | [] => split_go [] s'
        | _ => string_of_list_ascii (rev cur) :: split_go [] s'
        end
      else split_go (c :: cur) s'
  end.

(** [s.split()]: the maximal runs of non-whitespace characters. *)
Definition split (s : string) : list string := split_go [] s.

(** [s.split(sep)] for a one-character separator: never empty. *)
Fixpoint split_on (sep : ascii) (s : string) : list string :=
  match s with
  | EmptyString => [EmptyString]
  | String c s' =>
      if Ascii.eqb c sep then EmptyString :: split_on sep s'
      else
        match split_on sep s' with
        | h :: t => String c h :: t
        | [] => [String c EmptyString]
        end
  end.

Fixpoint has_char (c : ascii) (s : string) : bool :=
  match s with
  | EmptyString => false
  | String a s' => Ascii.eqb a c || has_char c s'
  end.

End Str.

(** [l[i]] on a list. *)
Definition subscript {A} (l : list A) (i : nat) : result A :=
  match nth_error l i with
  | Some x => Ok x
  | None => Raise IndexError
  end.

(** ** The store, the trace and the monad of the handler *)

Abbreviation dict := (gmap string value).
Abbreviation loc := positive.

Inductive effect : Type :=
| Log (level msg : string)
| Sleep (seconds : Q)
| EC2_describe_instance_attribute (InstanceId : value) (Attribute : string)
| ECS_list_container_instances (cluster : string)
| ECS_describe_container_instances (cluster : string) (containerInstances : list string)
| ECS_update_container_instances_state
    (cluster : string) (containerInstances : list string) (status : string)
| ECS_list_tasks (cluster : string) (containerInstance : string)
| ASG_complete_lifecycle_action
    (LifecycleHookName : value) (AutoScalingGroupName : value)
    (LifecycleActionResult : string) (InstanceId : value)
| SNS_publish (TopicArn : string) (Message : dict) (Subject : string).

(** What running a piece of the handler yields: its result, the store it
    leaves, and the effects it performed, in order. *)
Record outcome (A : Type) : Type := mkOutcome {
  res : result A;
  store : gmap loc dict;
  events : list effect
}.
Arguments mkOutcome {A} res store events.
Arguments res {A} o.
Arguments store {A} o.
Arguments events {A} o.

Definition M (A : Type) : Type := gmap loc dict -> outcome A.

Definition ret {A} (a : A) : M A := fun h => mkOutcome (Ok a) h [].
Definition raise {A} (e : exn) : M A := fun h => mkOutcome (Raise e) h [].
Definition bind {A B} (m : M A) (k : A -> M B) : M B :=
  fun h =>
    let o := m h in
    match res o with
    | Ok a =>
        let o' := k a (store o) in
        mkOutcome (res o') (store o') (events o ++ events o')
    | Raise e => mkOutcome (Raise e) (store o) (events o)
    end.

Notation "x <- m ;; k" := (bind m (fun x => k))
  (at level 100, m at next level, right associativity).
Notation "m ;;; k" := (bind m (fun _ => k))
  (at level 100, right associativity).

Definition emit (e : effect) : M unit := fun h => mkOutcome (Ok tt) h [e].

Definition lift {A} (r : result A) : M A :=
  match r with
  | Ok a => ret a
  | Raise e => raise e
  end.

(** A client call: recorded, then answered by the service. *)
Definition call {A} (e : effect) (answer : exn + A) : M A :=
  emit e ;;;
  match answer with
  | inl x => raise x
  | inr a => ret a
  end.

(** [log(msg, level=...)]; the default level is INFO. *)
Definition log (level msg : string) : M unit := emit (Log level msg).

(** Reading and updating the dictionary object at a location. *)
Definition deref (l : loc) : M dict :=
  fun h =>
    match h !! l with
    | Some d => mkOutcome (Ok d) h []
    | None => mkOutcome (Raise (OtherError "dangling reference")) h []
    end.

(** [d.update(other)] on the object at [l]: the keys of [other] win. *)
Definition dict_update (l : loc) (other : dict) : M unit :=
  d <- deref l ;;
  fun h => mkOutcome (Ok tt) (<[l := other ∪ d]> h) [].

(** A fresh dictionary object. *)
Definition alloc (d : dict) : M loc :=
  fun h =>
    let l := fresh (dom h) in
    mkOutcome (Ok l) (<[l := d]> h) [].

(** [d[key]] *)
Definition getitem (d : dict) (key : string) : result value :=
  match d !! key with
  | Some v => Ok v
  | None => Raise (KeyError key)
  end.

(** ** The environment: service clients and the random source *)

(** One element of [describe_container_instances(...)['containerInstances']]. *)
Record container_instance : Type := mkCI {
  ec2InstanceId : string;
  containerInstanceArn : string;
  status : string
}.

Record Env : Type := mkEnv {
  (** [EC2_CLIENT.describe_instance_attribute(...)['UserData'].get('Value')],
      decoded; [None] when the key is absent. *)
  ec2_describe_instance_attribute : value -> exn + option string;
  (** [...['containerInstanceArns']] *)
  ecs_list_container_instances : string -> exn + list string;
  (** [...['containerInstances']] *)
  ecs_describe_container_instances :
    string -> list string -> exn + list container_instance;
  ecs_update_container_instances_state :
    string -> list string -> string -> exn + unit;
  (** [...['taskArns']] *)
  ecs_list_tasks : string -> string -> exn + list string;
  asg_complete_lifecycle_action : value -> value -> string -> value -> exn + unit;
  sns_publish : string -> dict -> string -> exn + unit;
  (** the draw of [random.randint(0, 1000)] *)
  randint_0_1000 : Z;
  (** [2 ** x] for a float [x]: the platform's [pow(2.0, x)], which raises
      [OverflowError] when the result is out of range *)
  float_pow2 : Q -> exn + Q;
  (** [x + y] for a float [x]: the platform's sum, rounded to a double *)
  float_add : Q -> Q -> Q
}.

(** ** The program *)

Section Program.

Variable env : Env.

(** *** [publish_to_sns] *)

(** [min(a, b)]: [b] when it is strictly smaller, else [a]. *)
Definition py_min (a b : Q) : Q := if Qle_bool a b then a else b.

(** The least positive [int] that does not convert to a [float]: halfway
    from the largest double to [2 ** 1024]. *)
Definition float_int_limit : Z := 2 ^ 1024 - 2 ^ 970.

(** [2 ** retry_count] for an [int], as the float it is added to the jitter
    as. A non-negative exponent gives an [int], whose conversion raises
    [OverflowError] from [2 ** 1024] on. A negative exponent gives
    [float(2) ** float(retry_count)]: exact down to the least subnormal
    [2 ** -1074], 0.0 below it, and [OverflowError] when the exponent itself
    does not convert. *)
Definition pow2_as_float (retry_count : Z) : result Q :=
  if 0 <=? retry_count then
    if retry_count <? 1024 then Ok (inject_Z (2 ^ retry_count))
    else Raise OverflowError
  else if -1074 <=? retry_count then Ok (/ inject_Z (2 ^ (- retry_count)))
  else if - float_int_limit <? retry_count then Ok 0%Q
  else Raise OverflowError.

(** Lines 44-47, for an integer [retry_count] and a draw [k]. *)
Definition sleep_time (retry_count k : Z) : result Q :=
  match pow2_as_float retry_count with
  | Ok p => Ok (py_min (p + inject_Z k / 1000) 30)
  | Raise e => Raise e
  end.

(** Lines 44-47 for the value read from the message: a [float] count goes
    through the platform's power and sum, an [int] or [bool] through [sleep_time],
    and anything else is a [TypeError] of [2 ** retry_count]. *)
Definition backoff (retry_count : value) : result Q :=
  match retry_count with
  | VFloat x =>
      match float_pow2 env x with
      | inr p =>
          Ok (py_min (float_add env p (inject_Z (randint_0_1000 env) / 1000)) 30)
      | inl e => Raise e
      end
  | _ =>
      match as_int retry_count with
      | Some rc => sleep_time rc (randint_0_1000 env)
      | None => Raise TypeError
      end
  end.

(** [retry_count += 1] *)
Definition plus_one (retry_count : value) : result value :=
  match retry_count with
  | VFloat x => Ok (VFloat (float_add env x 1))
  | _ =>
      match as_int retry_count with
      | Some rc => Ok (VInt (rc + 1))
      | None => Raise TypeError
      end
  end.

Definition publish_to_sns (message : loc) (topic_arn : string) : M string :=
  d <- deref message ;;
  let retry_count := default (VInt 1) (d !! "retry_count") in
  t <- lift (backoff retry_count) ;;
  log "INFO" "Sleeping for {sleep_time}" ;;;
  emit (Sleep t) ;;;
  retry_count <- lift (plus_one retry_count) ;;
  dict_update message {[ "retry_count" := retry_count ]} ;;;
  log "DEBUG" "Publish to SNS topic {topic_arn}" ;;;
  d' <- deref message ;;
  let subject := "Publishing SNS message to invoke lambda again.." in
  call (SNS_publish topic_arn d' subject)
       (sns_publish env topic_arn d' subject) ;;;
  ret "published".

(** *** [get_ecs_cluster_name] *)

(** The loop of lines 156-160 over the remaining tokens. *)
Fixpoint scan_tokens (tmp_list : list string) (cluster_name : string)
  : M string :=
  match tmp_list with
  | [] => ret cluster_name
  | token :: rest =>
      if Str.contains "ECS_CLUSTER" token then
        cluster_name <- lift (subscript (Str.split_on "=" token) 1) ;;
        log "DEBUG" "Detected cluster name {cluster_name} from userdata" ;;;
        scan_tokens rest cluster_name
      else scan_tokens rest cluster_name
  end.

(** Lines 153-162: from the decoded user data to the cluster name. *)
Definition cluster_name_of_userdata (userdata_decoded : string) : M string :=
  scan_tokens (Str.split userdata_decoded) "default".

Definition get_ecs_cluster_name (ec2_instance_id : value) : M string :=
  v <- call (EC2_describe_instance_attribute ec2_instance_id "userData")
            (ec2_describe_instance_attribute env ec2_instance_id) ;;
  cluster_name_of_userdata (default "" v).

(** *** [container_instance_task_status] *)

(** [container_instances['ec2InstanceId'] == ec2_instance_id] *)
Definition str_eq_value (s : string) (v : value) : bool :=
  match v with
  | VStr s' => String.eqb s s'
  | _ => false
  end.

(** The loop of lines 83-111; the accumulator is
    [(container_instance_id, tmp_msg_append)]. *)
Fixpoint mark_draining (ec2_instance_id : value) (cluster_name : string)
    (instances : list container_instance)
    (acc : option string * option dict)
  : M (option string * option dict) :=
  match instances with
  | [] => ret acc
  | container_instances :: rest =>
      if str_eq_value (ec2InstanceId container_instances) ec2_instance_id then
        let container_instance_id := containerInstanceArn container_instances in
        let tmp_msg_append : dict :=
          {[ "container_instance_id" := VStr container_instance_id ]} in
        (if String.eqb (status container_instances) "DRAINING" then
           log "INFO" "Instance currently in draining state."
         else
           log "INFO" "Setting container instance status to DRAINING" ;;;
           call (ECS_update_container_instances_state
                   cluster_name [container_instance_id] "DRAINING")
                (ecs_update_container_instances_state env
                   cluster_name [container_instance_id] "DRAINING")) ;;;
        mark_draining ec2_instance_id cluster_name rest
          (Some container_instance_id, Some tmp_msg_append)
      else mark_draining ec2_instance_id cluster_name rest acc
  end.

Definition container_instance_task_status (ec2_instance_id : value)
  : M (Z * option dict) :=
  cluster_name <- get_ecs_cluster_name ec2_instance_id ;;
  arns <- call (ECS_list_container_instances cluster_name)
               (ecs_list_container_instances env cluster_name) ;;
  instances <- call (ECS_describe_container_instances cluster_name arns)
                    (ecs_describe_container_instances env cluster_name arns) ;;
  found <- mark_draining ec2_instance_id cluster_name instances (None, None) ;;
  let '(container_instance_id, tmp_msg_append) := found in
  match container_instance_id with
  | Some cid =>
      task_arns <- call (ECS_list_tasks cluster_name cid)
                        (ecs_list_tasks env cluster_name cid) ;;
      let running_task_count := Z.of_nat (length task_arns) in
      log "INFO" "{running_task_count} tasks running" ;;;
      if 0 <? running_task_count then ret (1, tmp_msg_append)
      else ret (0, tmp_msg_append)
  | None =>
      log "INFO" "Instance ID: {ec2_instance_id} not in cluster; assuming 0 tasks running." ;;;
      ret (0, tmp_msg_append)
  end.

(** *** [lambda_handler] *)

(** [event['Records'][0]]: the decoded message and the two ARNs read. *)
Record sns_record : Type := mkRecord {
  Message : dict;
  EventSubscriptionArn : string;
  TopicArn : string
}.

(** [v.find('autoscaling:EC2_INSTANCE_TERMINATING')]: only a [str] has
    the method. *)
Definition find_terminating (v : value) : result Z :=
  match v with
  | VStr s => Ok (Str.find s "autoscaling:EC2_INSTANCE_TERMINATING")
  | _ => Raise AttributeError
  end.

(** Lines 212-220. *)
Definition complete_lifecycle
    (lifecycle_hook_name asg_group_name ec2_instance_id : value) : M unit :=
  emit (ASG_complete_lifecycle_action
          lifecycle_hook_name asg_group_name "CONTINUE" ec2_instance_id) ;;;
  match asg_complete_lifecycle_action env
          lifecycle_hook_name asg_group_name "CONTINUE" ec2_instance_id with
  | inr _ => log "INFO" "Completed lifecycle hook action."
  | inl (ClientError _) => log "ERROR" "error"
  | inl exc => raise exc
  end.

Definition lambda_handler (event : sns_record) : M unit :=
  message <- alloc (Message event) ;;
  m <- deref message ;;
  ec2_instance_id <- lift (getitem m "EC2InstanceId") ;;
  asg_group_name <- lift (getitem m "AutoScalingGroupName") ;;
  let topic_arn := TopicArn event in
  log "DEBUG" "Lambda received event" ;;;
  match m !! "LifecycleTransition" with
  | None => ret tt
  | Some transition =>
      log "INFO" "message autoscaling {message['LifecycleTransition']}" ;;;
      pos <- lift (find_terminating transition) ;;
      if -1 <? pos then
        lifecycle_hook_name <- lift (getitem m "LifecycleHookName") ;;
        log "DEBUG" "Setting lifecycle hook name {lifecycle_hook_name}" ;;;
        log "INFO" "Terminating EC2 Instance..." ;;;
        status <- container_instance_task_status ec2_instance_id ;;
        let '(tasks_running, tmp_msg_append) := status in
        match tmp_msg_append with
        | Some other => dict_update message other
        | None => ret tt
        end ;;;
        if tasks_running =? 1 then
          log "INFO" "Tasks still running, republish to SNS..." ;;;
          publish_to_sns message topic_arn ;;;
          ret tt
        else if tasks_running =? 0 then
          log "INFO" "No tasks running. Completing lifecycle action..." ;;;
          complete_lifecycle lifecycle_hook_name asg_group_name ec2_instance_id
        else ret tt
      else ret tt
  end.

End Program.

(** ** The vocabulary of the properties *)

(** [wp m h Q]: running [m] from store [h] yields a result, a store and
    effects that satisfy [Q]. *)
Definition wp {A} (m : M A) (h : gmap loc dict)
    (Q : result A -> gmap loc dict -> list effect -> Prop) : Prop :=
  Q (res (m h)) (store (m h)) (events (m h)).

(** [frameless m]: the result and the effects of [m] do not depend on the
    store, and [m] hands the store back as it got it. *)
Definition frameless {A} (m : M A) : Prop :=
  forall h, m h = mkOutcome (res (m ∅)) h (events (m ∅)).

(** [emits P m]: whatever the store, every effect of [m] satisfies [P]. *)
Definition emits {A} (P : effect -> Prop) (m : M A) : Prop :=
  forall h, Forall P (events (m h)).

(** *** Classes of effects *)

Definition is_log (e : effect) : bool :=
  match e with Log _ _ => true | _ => false end.

Definition is_publish (e : effect) : bool :=
  match e with SNS_publish _ _ _ => true | _ => false end.

Definition is_completion (e : effect) : bool :=
  match e with ASG_complete_lifecycle_action _ _ _ _ => true | _ => false end.

Definition is_update_state (e : effect) : bool :=
  match e with ECS_update_container_instances_state _ _ _ => true | _ => false end.

Definition is_list_tasks (e : effect) : bool :=
  match e with ECS_list_tasks _ _ => true | _ => false end.

(** The effects of a status check: log lines and calls to the EC2 and ECS
    clients. *)
Definition is_cluster_query (e : effect) : bool :=
  match e with
  | Log _ _
  | EC2_describe_instance_attribute _ _
  | ECS_list_container_instances _
  | ECS_describe_container_instances _ _
  | ECS_update_container_instances_state _ _ _
  | ECS_list_tasks _ _ => true
  | _ => false
  end.

(** The tracked instance the loop settles on: the last one whose EC2
    identifier equals the one looked for. *)
Definition is_match (ec2_instance_id : value) (ci : container_instance) : bool :=
  str_eq_value (ec2InstanceId ci) ec2_instance_id.

Definition matched_instance (ec2_instance_id : value)
    (instances : list container_instance) : option container_instance :=
  last (filter (fun ci => is_match ec2_instance_id ci = true) instances).

(** The text up to the first separator, and the text after it. *)
Fixpoint before_sep (sep : ascii) (s : string) : string :=
  match s with
  | EmptyString => EmptyString
  | String c s' =>
      if Ascii.eqb c sep then EmptyString else String c (before_sep sep s')
  end.

Fixpoint after_sep (sep : ascii) (s : string) : string :=
  match s with
  | EmptyString => EmptyString
  | String c s' => if Ascii.eqb c sep then s' else after_sep sep s'
  end.

(** A token the scan stops at: it mentions the marker. *)
Definition mentions_cluster (token : string) : bool :=
  Str.contains "ECS_CLUSTER" token.

(** The value such a token assigns: between its first and second ['=']. *)
Definition assigned (token : string) : string :=
  before_sep "=" (after_sep "=" token).

(** The count [publish_to_sns] works with: the message's [retry_count],
    1 if the message has none; no count if it is not an integer. *)
Definition current_retry_count (d : dict) : option Z :=
  as_int (default (VInt 1) (d !! "retry_count")).

Definition retry_subject : string :=
  "Publishing SNS message to invoke lambda again..".

(** The message with its count set. *)
Definition with_retry_count (n : Z) (d : dict) : dict :=
  <["retry_count" := VInt n]> d.

(** *** Further vocabulary *)

Definition is_sleep (e : effect) : bool :=
  match e with Sleep _ => true | _ => false end.

(** The client calls among some effects, in order. *)
Definition api_calls (evs : list effect) : list effect :=
  List.filter (fun e => negb (is_log e) && negb (is_sleep e)) evs.

(** A matching instance the loop asks the cluster manager to drain. *)
Definition needs_draining (ec2_instance_id : value) (ci : container_instance)
  : bool :=
  is_match ec2_instance_id ci && negb (String.eqb (status ci) "DRAINING").

Definition draining_call (cluster_name : string) (ci : container_instance)
  : effect :=
  ECS_update_container_instances_state
    cluster_name [containerInstanceArn ci] "DRAINING".

(** A character of a word: no whitespace. *)
Fixpoint no_space (s : string) : bool :=
  match s with
  | EmptyString => true
  | String c s' => negb (Str.isspace c) && no_space s'
  end.

(** The log lines of a terminating notice before its status check. *)
Definition terminating_prologue : list effect :=
  [Log "DEBUG" "Lambda received event";
   Log "INFO" "message autoscaling {message['LifecycleTransition']}";
   Log "DEBUG" "Setting lifecycle hook name {lifecycle_hook_name}";
   Log "INFO" "Terminating EC2 Instance..."].

(** How one republish raises the count of a message: a message without one
    counts as 1, a [bool] counts as an [int], and a [float] becomes the
    platform's sum of it and 1. *)
Inductive raised_count (env : Env) : option value -> value -> Prop :=
| raised_absent : raised_count env None (VInt 2)
| raised_int (n : Z) : raised_count env (Some (VInt n)) (VInt (n + 1))
| raised_bool (b : bool) :
    raised_count env (Some (VBool b)) (VInt (if b then 2 else 1))
| raised_float (x : Q) :
    raised_count env (Some (VFloat x)) (VFloat (float_add env x 1)).

(** The counts for which there is a delay to sleep: none, an [int] whose
    power and which itself convert to a [float], a [bool], and a [float]
    whose power the platform computes. *)
Inductive has_delay (env : Env) : option value -> Prop :=
| delay_absent : has_delay env None
| delay_int (n : Z) :
    - float_int_limit < n < 1024 -> has_delay env (Some (VInt n))
| delay_bool (b : bool) : has_delay env (Some (VBool b))
| delay_float (x p : Q) :
    float_pow2 env x = inr p -> has_delay env (Some (VFloat x)).

(** The marker of an instance-terminating transition. *)
Definition terminating_marker : string := "autoscaling:EC2_INSTANCE_TERMINATING".

(** ** Sample inputs *)

Module Sample.

(** User data that names the cluster. *)
Definition userdata : string :=
  "#!/bin/bash echo ECS_CLUSTER=prod-cluster >> /etc/ecs/ecs.config".

(** User data that also mentions the marker in a comment. *)
Definition userdata_with_comment : string :=
  "#!/bin/bash # sets ECS_CLUSTER echo ECS_CLUSTER=prod-cluster >> /etc/ecs/ecs.config".

(** A cluster of two instances booted with [text]; [i-1] runs [tasks]; every
    call succeeds except the lifecycle completion, which answers
    [completion]; the draw is 337; the platform's power is 2.828 (its value
    at 1.5) throughout and its sum the exact one. *)
Definition env (text : string) (tasks : list string) (completion : exn + unit)
  : Env :=
  mkEnv
    (fun _ => inr (Some text))
    (fun _ => inr ["arn:ci/0"; "arn:ci/1"])
    (fun _ _ => inr [mkCI "i-0" "arn:ci/0" "ACTIVE"; mkCI "i-1" "arn:ci/1" "ACTIVE"])
    (fun _ _ _ => inr tt)
    (fun _ _ => inr tasks)
    (fun _ _ _ _ => completion)
    (fun _ _ _ => inr tt)
    337
    (fun _ => inr (2828 # 1000))
    Qplus.

(** The initial termination notice of the autoscaling group. *)
Definition notice : dict :=
  list_to_map
    [("EC2InstanceId", VStr "i-1");
     ("AutoScalingGroupName", VStr "asg-1");
     ("LifecycleHookName", VStr "hook-1");
     ("LifecycleTransition", VStr "autoscaling:EC2_INSTANCE_TERMINATING")].

Definition event (message : dict) : sns_record :=
  mkRecord message "arn:aws:sns:subscription" "arn:aws:sns:topic".

Definition topic : string := "arn:aws:sns:topic".
Definition marker := "autoscaling:EC2_INSTANCE_TERMINATING".
Definition instances : list container_instance :=
  [mkCI "i-0" "arn:ci/0" "ACTIVE"; mkCI "i-1" "arn:ci/1" "ACTIVE"].
Definition reference : dict := {[ "container_instance_id" := VStr "arn:ci/1" ]}.

End Sample.

(** ** Sample failures *)

Module Faulty.

(** The sample cluster with one task on [i-1], every call succeeding. *)
Definition sample_env : Env :=
  Sample.env Sample.userdata ["task/1"] (inr tt).
Definition i1 : container_instance := mkCI "i-1" "arn:ci/1" "ACTIVE".
Definition arns : list string := ["arn:ci/0"; "arn:ci/1"].

(** The sample cluster, with one client call that fails. *)
Definition no_inventory : Env :=
  mkEnv
    (fun _ => inl (ClientError "InvalidInstanceID.NotFound"))
    (fun _ => inr ["arn:ci/0"; "arn:ci/1"])
    (fun _ _ => inr Sample.instances)
    (fun _ _ _ => inr tt)
    (fun _ _ => inr ["task/1"])
    (fun _ _ _ _ => inr tt)
    (fun _ _ _ => inr tt)
    337
    (fun _ => inr (2828 # 1000))
    Qplus.

Definition refusing_drain : Env :=
  mkEnv
    (fun _ => inr (Some Sample.userdata))
    (fun _ => inr ["arn:ci/0"; "arn:ci/1"])
    (fun _ _ => inr Sample.instances)
    (fun _ _ _ => inl (ClientError "InvalidParameterException"))
    (fun _ _ => inr ["task/1"])
    (fun _ _ _ _ => inr tt)
    (fun _ _ _ => inr tt)
    337
    (fun _ => inr (2828 # 1000))
    Qplus.

Definition publish_fails : Env :=
  mkEnv
    (fun _ => inr (Some Sample.userdata))
    (fun _ => inr ["arn:ci/0"; "arn:ci/1"])
    (fun _ _ => inr Sample.instances)
    (fun _ _ _ => inr tt)
    (fun _ _ => inr ["task/1"])
    (fun _ _ _ _ => inr tt)
    (fun _ _ _ => inl (ClientError "Throttled"))
    337
    (fun _ => inr (2828 # 1000))
    Qplus.

End Faulty.

(** ** Reasoning about runs *)

Section Wp.

Context {A B : Type}.
Implicit Types (h : gmap loc dict) (Q : result A -> gmap loc dict -> list effect -> Prop).

Lemma wp_ret (a : A) h Q : Q (Ok a) h [] -> wp (ret a) h Q.
Proof. exact id. Qed.

Lemma wp_raise (e : exn) h Q : Q (Raise e) h [] -> wp (raise e) h Q.
Proof. exact id. Qed.

Lemma wp_lift (r : result A) h Q : Q r h [] -> wp (lift r) h Q.
Proof. destruct r; exact id. Qed.

Lemma wp_bind (m : M A) (k : A -> M B) h
    (Q : result B -> gmap loc dict -> list effect -> Prop) :
  wp m h (fun r h1 e1 =>
            match r with
            | Ok a => wp (k a) h1 (fun r2 h2 e2 => Q r2 h2 (e1 ++ e2)%list)
            | Raise e => Q (Raise e) h1 e1
            end) ->
  wp (bind m k) h Q.
Proof.
  unfold wp, bind. destruct (res (m h)); cbn [res store events]; exact id.
Qed.

Lemma wp_call (e : effect) (answer : exn + A) h Q :
  match answer with
  | inl x => Q (Raise x) h [e]
  | inr a => Q (Ok a) h [e]
  end ->
  wp (call e answer) h Q.
Proof. destruct answer; exact id. Qed.

Lemma wp_eq (m : M A) h r h' evs Q :
  m h = mkOutcome r h' evs -> Q r h' evs -> wp m h Q.
Proof. unfold wp. intros ->. exact id. Qed.

Lemma wp_emits (P : effect -> Prop) (m : M A) h Q :
  (forall h', Forall P (events (m h'))) ->
  (forall r h' evs, Forall P evs -> Q r h' evs) -> wp m h Q.
Proof. unfold wp. auto. Qed.

End Wp.

Lemma wp_emit (e : effect) h (Q : result unit -> gmap loc dict -> list effect -> Prop) :
  Q (Ok tt) h [e] -> wp (emit e) h Q.
Proof. exact id. Qed.

Lemma wp_log level msg h (Q : result unit -> gmap loc dict -> list effect -> Prop) :
  Q (Ok tt) h [Log level msg] -> wp (log level msg) h Q.
Proof. exact id. Qed.

Lemma wp_alloc d h (Q : result loc -> gmap loc dict -> list effect -> Prop) :
  Q (Ok (fresh (dom h))) (<[fresh (dom h) := d]> h) [] -> wp (alloc d) h Q.
Proof. exact id. Qed.

Lemma wp_deref l d h (Q : result dict -> gmap loc dict -> list effect -> Prop) :
  h !! l = Some d -> Q (Ok d) h [] -> wp (deref l) h Q.
Proof. unfold wp, deref. intros ->. exact id. Qed.

Lemma wp_dict_update l d other h
    (Q : result unit -> gmap loc dict -> list effect -> Prop) :
  h !! l = Some d -> Q (Ok tt) (<[l := other ∪ d]> h) [] ->
  wp (dict_update l other) h Q.
Proof.
  intros Hl HQ. unfold dict_update. apply wp_bind.
  apply (wp_deref l d); [exact Hl|]. exact HQ.
Qed.

(** One step of a run: the rule of the construct at the head. *)
Ltac wp_step :=
  lazymatch goal with
  | |- wp (bind _ _) _ _ => apply wp_bind
  | |- wp (ret _) _ _ => apply wp_ret
  | |- wp (raise _) _ _ => apply wp_raise
  | |- wp (lift _) _ _ => apply wp_lift
  | |- wp (log _ _) _ _ => apply wp_log
  | |- wp (emit _) _ _ => apply wp_emit
  | |- wp (call _ _) _ _ => apply wp_call
  | |- wp (alloc _) _ _ => apply wp_alloc
  end.

(** *** Code that leaves the store alone *)

Lemma frameless_ret {A} (a : A) : frameless (ret a).
Proof. intros h. reflexivity. Qed.

Lemma frameless_raise {A} (e : exn) : frameless (@raise A e).
Proof. intros h. reflexivity. Qed.

Lemma frameless_lift {A} (r : result A) : frameless (lift r).
Proof. destruct r; intros h; reflexivity. Qed.

Lemma frameless_emit e : frameless (emit e).
Proof. intros h. reflexivity. Qed.

Lemma frameless_log level msg : frameless (log level msg).
Proof. intros h. reflexivity. Qed.

Lemma frameless_bind {A B} (m : M A) (k : A -> M B) :
  frameless m -> (forall a, frameless (k a)) -> frameless (bind m k).
Proof.
  intros Hm Hk h. unfold bind.
  assert (Hs : store (m ∅) = ∅) by (rewrite (Hm ∅); reflexivity).
  rewrite (Hm h), Hs. cbn [res store events].
  destruct (res (m ∅)) as [a|e]; cbn [res store events]; [|reflexivity].
  rewrite (Hk a h). reflexivity.
Qed.

Lemma frameless_call {A} e (answer : exn + A) : frameless (call e answer).
Proof.
  unfold call. apply frameless_bind; [apply frameless_emit|].
  intros _. destruct answer; [apply frameless_raise | apply frameless_ret].
Qed.

Lemma wp_frameless {A} (m : M A) h
    (Q : result A -> gmap loc dict -> list effect -> Prop) :
  frameless m -> Q (res (m ∅)) h (events (m ∅)) -> wp m h Q.
Proof. intros Hm HQ. unfold wp. rewrite (Hm h). exact HQ. Qed.

Section Emits.

Variable P : effect -> Prop.

Lemma emits_ret {A} (a : A) : emits P (ret a).
Proof. intros h. constructor. Qed.

Lemma emits_raise {A} (e : exn) : emits P (@raise A e).
Proof. intros h. constructor. Qed.

Lemma emits_lift {A} (r : result A) : emits P (lift r).
Proof. destruct r; intros h; constructor. Qed.

Lemma emits_emit e : P e -> emits P (emit e).
Proof. intros He h. repeat constructor. exact He. Qed.

Lemma emits_bind {A B} (m : M A) (k : A -> M B) :
  emits P m -> (forall a, emits P (k a)) -> emits P (bind m k).
Proof.
  intros Hm Hk h. unfold bind.
  destruct (res (m h)) as [a|e]; cbn [events]; [|apply Hm].
  apply Forall_app. split; [apply Hm | apply Hk].
Qed.

Lemma emits_call {A} e (answer : exn + A) : P e -> emits P (call e answer).
Proof.
  intros He. unfold call. apply emits_bind; [apply emits_emit, He|].
  intros _. destruct answer; [apply emits_raise | apply emits_ret].
Qed.

End Emits.

(** ** Facts about the string operations *)

Module StrFacts.

(** [s.find(sub) > -1] and [sub in s] agree. *)
Lemma find_gt_contains (s sub : string) :
  (-1 <? Str.find s sub) = Str.contains sub s.
Proof.
  unfold Str.find, Str.contains.
  destruct (String.index 0 sub s) as [i|]; [|reflexivity].
  apply Z.ltb_lt. lia.
Qed.

Lemma split_on_cons (sep : ascii) (s : string) :
  Str.split_on sep s =
    before_sep sep s ::
      (if Str.has_char sep s then Str.split_on sep (after_sep sep s) else []).
Proof.
  induction s as [|c s IH]; [reflexivity|].
  cbn [Str.split_on before_sep after_sep Str.has_char].
  destruct (Ascii.eqb c sep); [reflexivity|].
  rewrite IH. reflexivity.
Qed.

Lemma split_on_absent (sep : ascii) (s : string) :
  Str.has_char sep s = false -> Str.split_on sep s = [s].
Proof.
  induction s as [|c s IH]; [reflexivity|].
  cbn [Str.split_on Str.has_char].
  destruct (Ascii.eqb c sep); [discriminate|].
  cbn [orb]. intros H. rewrite (IH H). reflexivity.
Qed.

(** [s.split(sep)[1]]: the text between the first and the second
    separator, if there is a separator at all. *)
Lemma subscript_split_on_1 (sep : ascii) (s : string) :
  subscript (Str.split_on sep s) 1 =
    if Str.has_char sep s then Ok (before_sep sep (after_sep sep s))
    else Raise IndexError.
Proof.
  rewrite split_on_cons. destruct (Str.has_char sep s); [|reflexivity].
  rewrite split_on_cons. reflexivity.
Qed.

End StrFacts.

(** ** The cluster resolver *)

Section Resolver.

Variable env : Env.

Lemma frameless_scan_tokens toks c : frameless (scan_tokens toks c).
Proof.
  revert c. induction toks as [|t toks IH]; intros c; cbn [scan_tokens].
  - apply frameless_ret.
  - destruct (Str.contains "ECS_CLUSTER" t); [|apply IH].
    apply frameless_bind; [apply frameless_lift|]. intros c'.
    apply frameless_bind; [apply frameless_log|]. intros _. apply IH.
Qed.

Lemma frameless_get_ecs_cluster_name id : frameless (get_ecs_cluster_name env id).
Proof.
  unfold get_ecs_cluster_name, cluster_name_of_userdata.
  apply frameless_bind; [apply frameless_call|].
  intros v. apply frameless_scan_tokens.
Qed.

Lemma emits_scan_tokens toks c : emits (fun e => is_log e = true) (scan_tokens toks c).
Proof.
  revert c. induction toks as [|t toks IH]; intros c; cbn [scan_tokens].
  - apply emits_ret.
  - destruct (Str.contains "ECS_CLUSTER" t); [|apply IH].
    apply emits_bind; [apply emits_lift|]. intros c'.
    apply emits_bind; [apply emits_emit; reflexivity|]. intros _. apply IH.
Qed.

(** When every token that mentions the marker has an ['='], the scan ends
    with the value of the last such token, or with the name it started
    from if there is none. *)
Lemma scan_tokens_ok toks c h :
  Forall (fun t => mentions_cluster t = true -> Str.has_char "=" t = true) toks ->
  res (scan_tokens toks c h) =
    Ok (match last (filter (fun t => mentions_cluster t = true) toks) with
        | Some t => assigned t
        | None => c
        end).
Proof.
  revert c h. induction toks as [|t toks IH]; intros c h Hall; [reflexivity|].
  apply Forall_cons in Hall as [Ht Hall].
  cbn [scan_tokens]. rewrite filter_cons.
  unfold mentions_cluster in *.
  destruct (Str.contains "ECS_CLUSTER" t) eqn:Hc.
  - rewrite decide_True by reflexivity.
    specialize (Ht eq_refl).
    unfold bind at 1. rewrite StrFacts.subscript_split_on_1, Ht.
    cbn [lift ret res store events].
    unfold bind at 1. cbn [log emit res store events].
    rewrite (IH _ _ Hall), last_cons. f_equal.
    destruct (last (filter _ toks)); reflexivity.
  - rewrite decide_False by discriminate. apply (IH _ _ Hall).
Qed.

(** A token that mentions the marker but has no ['='] makes the scan
    raise: the subscript [[1]] is out of range. *)
Lemma scan_tokens_raise toks c h :
  Exists (fun t => mentions_cluster t = true /\ Str.has_char "=" t = false) toks ->
  res (scan_tokens toks c h) = Raise IndexError.
Proof.
  revert c h. induction toks as [|t toks IH]; intros c h Hex.
  - inversion Hex.
  - cbn [scan_tokens]. unfold mentions_cluster in *.
    destruct (Str.contains "ECS_CLUSTER" t) eqn:Hc.
    + unfold bind at 1. rewrite StrFacts.subscript_split_on_1.
      destruct (Str.has_char "=" t) eqn:Heq.
      * cbn [lift ret res store events].
        unfold bind at 1. cbn [log emit res store events].
        apply IH. apply Exists_cons in Hex as [[_ Hno]|Hex]; [congruence|exact Hex].
      * reflexivity.
    + apply IH. apply Exists_cons in Hex as [[Hm _]|Hex]; [congruence|exact Hex].
Qed.

End Resolver.

(** ** The drain status checker *)

Section Checker.

Variable env : Env.

Lemma matched_instance_none id instances :
  Forall (fun ci => is_match id ci = false) instances ->
  matched_instance id instances = None.
Proof.
  unfold matched_instance. induction 1 as [|ci l Hci _ IH]; [reflexivity|].
  rewrite filter_cons, decide_False; [exact IH|]. rewrite Hci. discriminate.
Qed.

Lemma frameless_mark_draining id c cis acc :
  frameless (mark_draining env id c cis acc).
Proof.
  revert acc. induction cis as [|ci cis IH]; intros acc; cbn [mark_draining].
  - apply frameless_ret.
  - destruct (str_eq_value _ _); [|apply IH].
    apply frameless_bind; [|intros _; apply IH].
    destruct (String.eqb _ _); [apply frameless_log|].
    apply frameless_bind; [apply frameless_log|].
    intros _. apply frameless_call.
Qed.

Lemma frameless_container_instance_task_status id :
  frameless (container_instance_task_status env id).
Proof.
  unfold container_instance_task_status.
  apply frameless_bind; [apply frameless_get_ecs_cluster_name|]. intros c.
  apply frameless_bind; [apply frameless_call|]. intros arns.
  apply frameless_bind; [apply frameless_call|]. intros cis.
  apply frameless_bind; [apply frameless_mark_draining|].
  intros [[cid|] app].
  - apply frameless_bind; [apply frameless_call|]. intros tasks.
    apply frameless_bind; [apply frameless_log|]. intros _.
    destruct (_ <? _); apply frameless_ret.
  - apply frameless_bind; [apply frameless_log|]. intros _. apply frameless_ret.
Qed.

Lemma emits_mark_draining id c cis acc :
  emits (fun e => is_cluster_query e = true) (mark_draining env id c cis acc).
Proof.
  revert acc. induction cis as [|ci cis IH]; intros acc; cbn [mark_draining].
  - apply emits_ret.
  - destruct (str_eq_value _ _); [|apply IH].
    apply emits_bind; [|intros _; apply IH].
    destruct (String.eqb _ _); [apply emits_emit; reflexivity|].
    apply emits_bind; [apply emits_emit; reflexivity|].
    intros _. apply emits_call. reflexivity.
Qed.

(** Resolving the cluster logs and reads the user data, nothing else. *)
Lemma emits_get_ecs_cluster_name (P : effect -> Prop) id :
  (forall e, is_log e = true -> P e) ->
  P (EC2_describe_instance_attribute id "userData") ->
  emits P (get_ecs_cluster_name env id).
Proof.
  intros Hlog Hcall. unfold get_ecs_cluster_name, cluster_name_of_userdata.
  apply emits_bind; [apply emits_call; exact Hcall|]. intros v.
  intros h. eapply Forall_impl; [apply emits_scan_tokens|]. exact Hlog.
Qed.

(** A status check only logs and queries the EC2 and ECS clients. *)
Lemma emits_container_instance_task_status id :
  emits (fun e => is_cluster_query e = true)
        (container_instance_task_status env id).
Proof.
  unfold container_instance_task_status.
  apply emits_bind.
  { apply emits_get_ecs_cluster_name; [|reflexivity].
    intros [] He; try discriminate; reflexivity. }
  intros c.
  apply emits_bind; [apply emits_call; reflexivity|]. intros arns.
  apply emits_bind; [apply emits_call; reflexivity|]. intros cis.
  apply emits_bind; [apply emits_mark_draining|].
  intros [[cid|] app].
  - apply emits_bind; [apply emits_call; reflexivity|]. intros tasks.
    apply emits_bind; [apply emits_emit; reflexivity|]. intros _.
    destruct (_ <? _); apply emits_ret.
  - apply emits_bind; [apply emits_emit; reflexivity|]. intros _. apply emits_ret.
Qed.

(** With no instance to match, the loop does nothing at all. *)
Lemma mark_draining_no_match id c cis acc h :
  Forall (fun ci => is_match id ci = false) cis ->
  mark_draining env id c cis acc h = mkOutcome (Ok acc) h [].
Proof.
  induction 1 as [|ci cis Hci _ IH]; [reflexivity|].
  cbn [mark_draining]. unfold is_match in Hci. rewrite Hci. exact IH.
Qed.

(** When each transition to DRAINING it asks for is accepted, the loop
    ends on the last matching instance. *)
Lemma mark_draining_res id c cis acc h :
  (forall ci, ci ∈ cis -> is_match id ci = true ->
              String.eqb (status ci) "DRAINING" = false ->
              ecs_update_container_instances_state env c
                [containerInstanceArn ci] "DRAINING" = inr tt) ->
  res (mark_draining env id c cis acc h) =
    Ok (match matched_instance id cis with
        | Some ci =>
            (Some (containerInstanceArn ci),
             Some {[ "container_instance_id" := VStr (containerInstanceArn ci) ]})
        | None => acc
        end).
Proof.
  unfold matched_instance.
  revert acc h. induction cis as [|ci cis IH]; intros acc h Hupd; [reflexivity|].
  assert (Hrest : forall ci', ci' ∈ cis -> is_match id ci' = true ->
              String.eqb (status ci') "DRAINING" = false ->
              ecs_update_container_instances_state env c
                [containerInstanceArn ci'] "DRAINING" = inr tt).
  { intros ci' Hin. apply Hupd. right. exact Hin. }
  cbn [mark_draining]. rewrite filter_cons.
  pose proof (Hupd ci (list_elem_of_here _ _)) as Hci. unfold is_match in *.
  destruct (str_eq_value (ec2InstanceId ci) id) eqn:Hm.
  - rewrite decide_True by reflexivity. rewrite last_cons.
    assert (Hstep : forall m : M unit, res (m h) = Ok tt ->
              res (bind m (fun _ => mark_draining env id c cis
                (Some (containerInstanceArn ci),
                 Some {[ "container_instance_id" := VStr (containerInstanceArn ci) ]})) h)
              = Ok (match last (filter (fun ci0 => str_eq_value (ec2InstanceId ci0) id = true) cis) with
                    | Some y =>
                        (Some (containerInstanceArn y),
                         Some {[ "container_instance_id" := VStr (containerInstanceArn y) ]})
                    | None =>
                        (Some (containerInstanceArn ci),
                         Some {[ "container_instance_id" := VStr (containerInstanceArn ci) ]})
                    end)).
    { intros m Hres. unfold bind. rewrite Hres. cbn [res].
      apply (IH _ _ Hrest). }
    destruct (last _) eqn:Hl; rewrite Hstep; try reflexivity.
    all: destruct (String.eqb (status ci) "DRAINING") eqn:Hs; [reflexivity|].
    all: unfold bind, call, bind; cbn [emit log res store events].
    all: rewrite (Hci eq_refl eq_refl); reflexivity.
  - rewrite decide_False by discriminate. apply (IH _ _ Hrest).
Qed.

End Checker.

Section CheckerRuns.

Variable env : Env.
Variable ec2_instance_id : value.

(** The result of a status check in which the user data is read and
    parsed, the instances are listed and described, and every transition to
    DRAINING is accepted. *)
Lemma container_instance_task_status_res h userdata cluster arns instances :
  ec2_describe_instance_attribute env ec2_instance_id = inr userdata ->
  res (cluster_name_of_userdata (default "" userdata) ∅) = Ok cluster ->
  ecs_list_container_instances env cluster = inr arns ->
  ecs_describe_container_instances env cluster arns = inr instances ->
  (forall ci, ci ∈ instances -> is_match ec2_instance_id ci = true ->
              String.eqb (status ci) "DRAINING" = false ->
              ecs_update_container_instances_state env cluster
                [containerInstanceArn ci] "DRAINING" = inr tt) ->
  res (container_instance_task_status env ec2_instance_id h) =
    match matched_instance ec2_instance_id instances with
    | None => Ok (0, None)
    | Some ci =>
        match ecs_list_tasks env cluster (containerInstanceArn ci) with
        | inl e => Raise e
        | inr task_arns =>
            Ok (match task_arns with [] => 0 | _ => 1 end,
                Some {[ "container_instance_id" :=
                          VStr (containerInstanceArn ci) ]})
        end
    end.
Proof.
  intros Hud Hcluster Hlist Hdescribe Hupd.
  match goal with
  | |- _ = ?X =>
      change (wp (container_instance_task_status env ec2_instance_id) h
                 (fun r _ _ => r = X))
  end.
  unfold container_instance_task_status, get_ecs_cluster_name.
  do 2 wp_step. wp_step. rewrite Hud.
  apply wp_frameless; [apply frameless_scan_tokens|].
  rewrite Hcluster.
  do 2 wp_step. rewrite Hlist.
  do 2 wp_step. rewrite Hdescribe.
  wp_step. apply wp_frameless; [apply frameless_mark_draining|].
  rewrite (mark_draining_res _ _ _ _ _ _ Hupd).
  destruct (matched_instance ec2_instance_id instances) as [ci|].
  - do 2 wp_step.
    destruct (ecs_list_tasks env cluster (containerInstanceArn ci)) as [e|tasks];
      [reflexivity|].
    do 2 wp_step. destruct tasks; reflexivity.
  - do 3 wp_step. reflexivity.
Qed.

End CheckerRuns.

(** ** Properties of the drain status checker *)

Section CheckerProperties.

Variable env : Env.

(** C4. An instance identifier that matches none of the container instances
    the cluster manager describes: the status check asks for no transition
    to DRAINING and lists no tasks; whenever it returns, it returns zero
    tasks and no resolved reference; and it does return when the user data
    is read and parsed and the instances are listed and described. *)
Theorem C4_untracked_instance_zero_tasks (ec2_instance_id : value) h :
  (forall cluster arns instances,
      ecs_describe_container_instances env cluster arns = inr instances ->
      Forall (fun ci => is_match ec2_instance_id ci = false) instances) ->
  let o := container_instance_task_status env ec2_instance_id h in
  Forall (fun e => is_update_state e = false /\ is_list_tasks e = false) (events o)
  /\ (forall r, res o = Ok r -> r = (0, None))
  /\ (forall userdata cluster arns instances,
        ec2_describe_instance_attribute env ec2_instance_id = inr userdata ->
        res (cluster_name_of_userdata (default "" userdata) ∅) = Ok cluster ->
        ecs_list_container_instances env cluster = inr arns ->
        ecs_describe_container_instances env cluster arns = inr instances ->
        res o = Ok (0, None)).
Proof.
  intros Hnone o.
  assert (Hrun : wp (container_instance_task_status env ec2_instance_id) h
            (fun r _ evs =>
               Forall (fun e => is_update_state e = false /\ is_list_tasks e = false) evs
               /\ forall x, r = Ok x -> x = (0, None))).
  { unfold container_instance_task_status. wp_step.
    apply (wp_emits (fun e => is_update_state e = false /\ is_list_tasks e = false)).
    { apply emits_get_ecs_cluster_name; [|split; reflexivity].
      intros [] He; try discriminate; split; reflexivity. }
    intros [cluster|e] h1 e1 He1; lazy beta iota;
      [|split; [exact He1|discriminate]].
    do 2 wp_step.
    destruct (ecs_list_container_instances env cluster) as [e|arns].
    { split; [|discriminate]. apply Forall_app. split; [exact He1|].
      repeat constructor. }
    do 2 wp_step.
    destruct (ecs_describe_container_instances env cluster arns)
      as [e|instances] eqn:Hdescribe.
    { split; [|discriminate]. apply Forall_app. split; [exact He1|].
      repeat constructor. }
    wp_step. eapply wp_eq.
    { apply mark_draining_no_match. exact (Hnone _ _ _ Hdescribe). }
    lazy beta iota. do 3 wp_step. split.
    - apply Forall_app. split; [exact He1|]. repeat constructor.
    - intros x Hx. congruence. }
  destruct Hrun as [Hev Hres]. split; [exact Hev|]. split; [exact Hres|].
  intros userdata cluster arns instances Hud Hcluster Hlist Hdescribe.
  subst o.
  rewrite (container_instance_task_status_res env ec2_instance_id h
             userdata cluster arns instances Hud Hcluster Hlist Hdescribe).
  - rewrite (matched_instance_none _ _ (Hnone _ _ _ Hdescribe)). reflexivity.
  - intros ci Hin Hm.
    pose proof (Hnone _ _ _ Hdescribe) as Hall.
    rewrite Forall_forall in Hall. rewrite (Hall ci Hin) in Hm. discriminate.
Qed.

End CheckerProperties.

(** ** The backoff delay *)

Section Backoff.

Lemma py_min_Qmin (a b : Q) : (py_min a b == Qmin a b)%Q.
Proof.
  unfold py_min. destruct (Qle_bool a b) eqn:Hab.
  - apply Qle_bool_iff in Hab. symmetry. apply Q.min_l. exact Hab.
  - symmetry. apply Q.min_r.
    destruct (Qlt_le_dec b a) as [Hlt|Hle]; [apply Qlt_le_weak, Hlt|].
    apply Qle_bool_iff in Hle. congruence.
Qed.

(** The jitter [random.randint(0, 1000) / 1000] lies between 0 and 1. *)
Lemma jitter_bounds (k : Z) :
  0 <= k <= 1000 -> (0 <= inject_Z k / 1000 <= 1)%Q.
Proof.
  intros [H0 H1]. rewrite Zle_Qle in H0, H1.
  change (inject_Z 0) with 0%Q in H0. change (inject_Z 1000) with 1000%Q in H1.
  split.
  - apply Qle_shift_div_l; [reflexivity|]. lra.
  - apply Qle_shift_div_r; [reflexivity|]. lra.
Qed.

(** Up to [2 ** 1023] the power converts to a float and a delay results. *)
Lemma sleep_time_defined (retry_count k : Z) :
  0 <= retry_count < 1024 ->
  sleep_time retry_count k =
    Ok (py_min (inject_Z (2 ^ retry_count) + inject_Z k / 1000) 30).
Proof.
  intros [H0 H1]. unfold sleep_time, pow2_as_float.
  apply Z.leb_le in H0. apply Z.ltb_lt in H1. rewrite H0, H1. reflexivity.
Qed.

Lemma float_int_limit_large : 1074 < float_int_limit.
Proof. reflexivity. Qed.

(** For a negative count down to -1074 the power is an exact float. *)
Lemma sleep_time_negative (retry_count k : Z) :
  -1074 <= retry_count < 0 ->
  sleep_time retry_count k =
    Ok (py_min (/ inject_Z (2 ^ (- retry_count)) + inject_Z k / 1000) 30).
Proof.
  intros [Hlo Hhi]. unfold sleep_time, pow2_as_float.
  apply Z.leb_gt in Hhi. apply Z.leb_le in Hlo. rewrite Hhi, Hlo. reflexivity.
Qed.

(** Below -1074 the power is 0.0, as long as the count converts. *)
Lemma sleep_time_underflow (retry_count k : Z) :
  - float_int_limit < retry_count < -1074 ->
  sleep_time retry_count k = Ok (py_min (0 + inject_Z k / 1000) 30).
Proof.
  intros [Hlo Hhi]. unfold sleep_time, pow2_as_float.
  assert (H0 : (0 <=? retry_count) = false) by (apply Z.leb_gt; lia).
  assert (H1 : (-1074 <=? retry_count) = false) by (apply Z.leb_gt; lia).
  apply Z.ltb_lt in Hlo. rewrite H0, H1, Hlo. reflexivity.
Qed.


(** Between the two there is a delay. *)
Lemma sleep_time_total (retry_count k : Z) :
  - float_int_limit < retry_count < 1024 ->
  exists t, sleep_time retry_count k = Ok t.
Proof.
  intros [Hlo Hhi].
  destruct (Z_lt_le_dec retry_count (-1074)) as [Hu|Hu].
  - eexists. apply sleep_time_underflow. lia.
  - destruct (Z_lt_le_dec retry_count 0).
    + eexists. apply sleep_time_negative. lia.
    + eexists. apply sleep_time_defined. lia.
Qed.

(** The delay for counts from 1 to 1023: the formula, the window it stays
    in while the power is below the cap, and the cap from 5 on. *)
Lemma sleep_time_spec (retry_count k : Z) :
  1 <= retry_count < 1024 -> 0 <= k <= 1000 ->
  exists t,
    sleep_time retry_count k = Ok t
    /\ (t == Qmin (inject_Z (2 ^ retry_count) + inject_Z k / 1000) 30)%Q
    /\ (retry_count <= 4 ->
        (inject_Z (2 ^ retry_count) <= t)%Q
        /\ (t <= inject_Z (2 ^ retry_count) + 1)%Q)
    /\ (5 <= retry_count -> (t == 30)%Q).
Proof.
  intros Hrc Hk. eexists. split; [apply sleep_time_defined; lia|].
  pose proof (jitter_bounds k Hk) as [Hj0 Hj1].
  set (j := (inject_Z k / 1000)%Q) in *.
  split; [apply py_min_Qmin|]. split.
  - intros Hsmall.
    assert (Hp : 2 ^ retry_count <= 2 ^ 4) by (apply Z.pow_le_mono_r; lia).
    change (2 ^ 4) with 16 in Hp. rewrite Zle_Qle in Hp.
    unfold py_min.
    assert (Hle : Qle_bool (inject_Z (2 ^ retry_count) + j) 30 = true).
    { apply Qle_bool_iff. change (inject_Z 16) with 16%Q in Hp. lra. }
    rewrite Hle. split; lra.
  - intros Hbig.
    assert (Hp : 2 ^ 5 <= 2 ^ retry_count) by (apply Z.pow_le_mono_r; lia).
    change (2 ^ 5) with 32 in Hp. rewrite Zle_Qle in Hp.
    change (inject_Z 32) with 32%Q in Hp.
    unfold py_min.
    destruct (Qle_bool (inject_Z (2 ^ retry_count) + j) 30) eqn:Hle;
      [|reflexivity].
    apply Qle_bool_iff in Hle. lra.
Qed.

End Backoff.

(** ** The retry publisher *)

Lemma run_eq {A} (m : M A) h r h' evs :
  wp m h (fun r0 h0 e0 => r0 = r /\ h0 = h' /\ e0 = evs) ->
  m h = mkOutcome r h' evs.
Proof.
  unfold wp. destruct (m h) as [r0 h0 e0]. cbn [res store events].
  intros (-> & -> & ->). reflexivity.
Qed.

Section Publisher.

Variable env : Env.

(** An [int] or [bool] count goes through [sleep_time] and is raised as an
    [int]. *)
Lemma backoff_int (v : value) (rc : Z) :
  as_int v = Some rc -> backoff env v = sleep_time rc (randint_0_1000 env).
Proof. destruct v; cbn [as_int backoff]; intros [= <-]; reflexivity. Qed.

Lemma plus_one_int (v : value) (rc : Z) :
  as_int v = Some rc -> plus_one env v = Ok (VInt (rc + 1)).
Proof. destruct v; cbn [as_int plus_one]; intros [= <-]; reflexivity. Qed.

(** A count that has a delay can be raised. *)
Lemma backoff_plus_one (v : value) (t : Q) :
  backoff env v = Ok t -> exists next, plus_one env v = Ok next.
Proof.
  destruct v as [| b | n | | | | x]; cbn [backoff plus_one as_int];
    try discriminate; eauto.
Qed.

(** A run that gets past the delay: what it logs, sleeps and publishes,
    and the store it leaves. *)
Lemma publish_to_sns_run (message : loc) topic_arn h d t next :
  h !! message = Some d ->
  backoff env (default (VInt 1) (d !! "retry_count")) = Ok t ->
  plus_one env (default (VInt 1) (d !! "retry_count")) = Ok next ->
  publish_to_sns env message topic_arn h =
    mkOutcome
      (match sns_publish env topic_arn (<["retry_count" := next]> d) retry_subject with
       | inl e => Raise e
       | inr _ => Ok "published"
       end)
      (<[message := <["retry_count" := next]> d]> h)
      [Log "INFO" "Sleeping for {sleep_time}"; Sleep t;
       Log "DEBUG" "Publish to SNS topic {topic_arn}";
       SNS_publish topic_arn (<["retry_count" := next]> d) retry_subject].
Proof.
  intros Hl Ht Hnext. apply run_eq. unfold publish_to_sns.
  unfold retry_subject.
  rewrite (insert_union_singleton_l d).
  wp_step. apply (wp_deref message d); [exact Hl|]. lazy beta iota zeta.
  rewrite Ht.
  do 2 wp_step. do 2 wp_step. do 2 wp_step.
  wp_step. rewrite Hnext. wp_step.
  wp_step. apply (wp_dict_update message d); [exact Hl|].
  do 2 wp_step. wp_step.
  eapply wp_deref; [apply lookup_insert_eq|].
  do 2 wp_step.
  destruct (sns_publish env topic_arn _ _); [repeat split|].
  wp_step. repeat split.
Qed.

(** A run that stops before the delay: nothing is logged, slept or
    published, and the store is as it was. *)
Lemma publish_to_sns_refused (message : loc) topic_arn h d e :
  h !! message = Some d ->
  backoff env (default (VInt 1) (d !! "retry_count")) = Raise e ->
  publish_to_sns env message topic_arn h = mkOutcome (Raise e) h [].
Proof.
  intros Hl Ht. apply run_eq. unfold publish_to_sns.
  wp_step. apply (wp_deref message d); [exact Hl|]. lazy beta iota zeta.
  rewrite Ht. do 2 wp_step. repeat split.
Qed.

(** The same for an integer count. *)
Lemma publish_to_sns_ok (message : loc) topic_arn h d rc t :
  h !! message = Some d ->
  current_retry_count d = Some rc ->
  sleep_time rc (randint_0_1000 env) = Ok t ->
  publish_to_sns env message topic_arn h =
    mkOutcome
      (match sns_publish env topic_arn (with_retry_count (rc + 1) d) retry_subject with
       | inl e => Raise e
       | inr _ => Ok "published"
       end)
      (<[message := with_retry_count (rc + 1) d]> h)
      [Log "INFO" "Sleeping for {sleep_time}"; Sleep t;
       Log "DEBUG" "Publish to SNS topic {topic_arn}";
       SNS_publish topic_arn (with_retry_count (rc + 1) d) retry_subject].
Proof.
  intros Hl Hrc Ht. unfold current_retry_count in Hrc.
  apply (publish_to_sns_run message topic_arn h d t (VInt (rc + 1)) Hl).
  - rewrite (backoff_int _ _ Hrc). exact Ht.
  - apply plus_one_int. exact Hrc.
Qed.

Lemma publish_to_sns_no_delay (message : loc) topic_arn h d rc e :
  h !! message = Some d ->
  current_retry_count d = Some rc ->
  sleep_time rc (randint_0_1000 env) = Raise e ->
  publish_to_sns env message topic_arn h = mkOutcome (Raise e) h [].
Proof.
  intros Hl Hrc Ht. unfold current_retry_count in Hrc.
  apply (publish_to_sns_refused message topic_arn h d e Hl).
  rewrite (backoff_int _ _ Hrc). exact Ht.
Qed.

End Publisher.

(** ** Properties of the retry publisher *)

Section PublisherProperties.

Variable env : Env.

(** C2, as the code has it. For a count from 1 to 1023 read from the current
    message (1 when the message has none) and a draw between 0 and 1000, the
    publisher sleeps once, before it publishes, for
    [min(2^retry_count + draw/1000, 30)] seconds: within
    [2^retry_count .. 2^retry_count + 1] for counts up to 4, and exactly 30
    from 5 on. *)
Theorem C2_backoff_delay_is_capped_sum (message : loc) topic_arn h d rc :
  h !! message = Some d ->
  current_retry_count d = Some rc ->
  1 <= rc < 1024 ->
  0 <= randint_0_1000 env <= 1000 ->
  exists t,
    events (publish_to_sns env message topic_arn h) =
      [Log "INFO" "Sleeping for {sleep_time}"; Sleep t;
       Log "DEBUG" "Publish to SNS topic {topic_arn}";
       SNS_publish topic_arn (with_retry_count (rc + 1) d) retry_subject]
    /\ (t == Qmin (inject_Z (2 ^ rc) + inject_Z (randint_0_1000 env) / 1000) 30)%Q
    /\ (rc <= 4 -> (inject_Z (2 ^ rc) <= t)%Q /\ (t <= inject_Z (2 ^ rc) + 1)%Q)
    /\ (5 <= rc -> (t == 30)%Q).
Proof.
  intros Hl Hrc Hrange Hk.
  destruct (sleep_time_spec rc (randint_0_1000 env) Hrange Hk)
    as (t & Ht & Hmin & Hsmall & Hbig).
  exists t. split; [|auto].
  rewrite (publish_to_sns_ok env message topic_arn h d rc t Hl Hrc Ht).
  reflexivity.
Qed.

Lemma plus_one_raised (o : option value) (next : value) :
  plus_one env (default (VInt 1) o) = Ok next -> raised_count env o next.
Proof.
  destruct o as [[| b | n | | | | x]|];
    cbn [default from_option id plus_one as_int];
    try discriminate; intros [= <-]; try constructor.
  destruct b; constructor.
Qed.

Lemma raised_plus_one (o : option value) (next : value) :
  raised_count env o next -> plus_one env (default (VInt 1) o) = Ok next.
Proof. intros []; try reflexivity. destruct b; reflexivity. Qed.

Lemma has_delay_backoff (o : option value) :
  has_delay env o -> exists t, backoff env (default (VInt 1) o) = Ok t.
Proof.
  intros [|n Hn|b|x p Hp]; cbn [default from_option id backoff as_int].
  - apply sleep_time_total. pose proof float_int_limit_large. lia.
  - apply sleep_time_total. exact Hn.
  - apply sleep_time_total. pose proof float_int_limit_large. destruct b; lia.
  - rewrite Hp. eauto.
Qed.

(** C3. Whatever the publisher publishes is the input message with its count
    raised by one (a message without a count counting as 1) and every other
    field as it was; and it does publish that message, once, when the count
    is absent or a number for which there is a delay. *)
Theorem C3_republish_increments_retry_count (message : loc) topic_arn h d :
  h !! message = Some d ->
  let evs := events (publish_to_sns env message topic_arn h) in
  (forall topic body subject,
      SNS_publish topic body subject ∈ evs ->
      exists next,
        raised_count env (d !! "retry_count") next
        /\ body !! "retry_count" = Some next
        /\ forall key, key ≠ "retry_count" -> body !! key = d !! key)
  /\ (forall next,
        raised_count env (d !! "retry_count") next ->
        has_delay env (d !! "retry_count") ->
        List.filter is_publish evs =
          [SNS_publish topic_arn (<["retry_count" := next]> d) retry_subject]).
Proof.
  intros Hl evs. subst evs.
  destruct (backoff env (default (VInt 1) (d !! "retry_count"))) as [t|e] eqn:Ht.
  - destruct (backoff_plus_one env _ _ Ht) as [next0 Hnext0].
    rewrite (publish_to_sns_run env message topic_arn h d t next0 Hl Ht Hnext0).
    cbn [events]. split.
    + intros topic body subject Hin.
      rewrite !elem_of_cons, elem_of_nil in Hin.
      destruct Hin as [Hin|[Hin|[Hin|[Hin|[]]]]]; try discriminate.
      injection Hin as -> -> ->. exists next0.
      split; [apply plus_one_raised; exact Hnext0|]. split.
      * apply lookup_insert_eq.
      * intros key Hkey. apply lookup_insert_ne. congruence.
    + intros next Hraised _. apply raised_plus_one in Hraised.
      rewrite Hnext0 in Hraised. injection Hraised as <-. reflexivity.
  - rewrite (publish_to_sns_refused env message topic_arn h d e Hl Ht).
    cbn [events]. split.
    + intros topic body subject Hin. apply elem_of_nil in Hin. destruct Hin.
    + intros next _ Hdelay.
      destruct (has_delay_backoff _ Hdelay) as [t Ht']. congruence.
Qed.

(** C8, as the code has it. The publisher works on the caller's message
    object: after a run with a count that is absent or an integer above
    [- float_int_limit] and below 1024, the object holds the raised count,
    so it is no longer the message that came in, and what was published is
    that same object; no other object of the store changes. *)
Theorem C8_message_updated_in_place (message : loc) topic_arn h d rc :
  h !! message = Some d ->
  current_retry_count d = Some rc ->
  - float_int_limit < rc < 1024 ->
  let o := publish_to_sns env message topic_arn h in
  store o !! message = Some (with_retry_count (rc + 1) d)
  /\ store o !! message ≠ Some d
  /\ List.filter is_publish (events o) =
       [SNS_publish topic_arn (with_retry_count (rc + 1) d) retry_subject]
  /\ (forall l, l ≠ message -> store o !! l = h !! l).
Proof.
  intros Hl Hrc Hlt o. subst o.
  destruct (sleep_time_total rc (randint_0_1000 env) Hlt) as [t Ht].
  rewrite (publish_to_sns_ok env message topic_arn h d rc t Hl Hrc Ht).
  cbn [store events]. rewrite lookup_insert_eq.
  split; [reflexivity|]. split; [|split; [reflexivity|]].
  - intros [= Heq].
    assert (Hnew : with_retry_count (rc + 1) d !! "retry_count" = Some (VInt (rc + 1)))
      by apply lookup_insert_eq.
    rewrite Heq in Hnew. unfold current_retry_count in Hrc.
    rewrite Hnew in Hrc. cbn in Hrc. injection Hrc. lia.
  - intros l Hne. apply lookup_insert_ne. congruence.
Qed.

End PublisherProperties.

(** C2 as stated fails from count 5 on: with no jitter the delay for count 5
    is the cap, 30 seconds, which is below [2^5]. *)
Lemma C2_counterexample :
  sleep_time 5 0 = Ok 30%Q /\ ~ (inject_Z (2 ^ 5) <= 30)%Q.
Proof.
  split; [reflexivity|]. intros H. vm_compute in H. apply H. reflexivity.
Qed.

(** C8 as stated fails: after republishing the initial notice, the message
    object the handler holds has a [retry_count], which the notice had not. *)
Lemma C8_counterexample :
  let h : gmap loc dict := {[ 1%positive := Sample.notice ]} in
  h !! 1%positive = Some Sample.notice
  /\ store (publish_to_sns (Sample.env Sample.userdata ["task/1"] (inr tt)) 1%positive "arn:aws:sns:topic" h)
       !! 1%positive ≠ Some Sample.notice.
Proof.
  split; [reflexivity|]. intros H.
  apply (f_equal (fun o : option dict => o ≫= (fun d => d !! "retry_count"))) in H.
  vm_compute in H. discriminate H.
Qed.


(** ** Properties of the entry point *)

(** The run of the handler up to the status check, for a terminating notice
    that has its fields. *)
Ltac handler_to_status_check Hid Hasg Hhook Htr Hmark :=
  unfold lambda_handler;
  do 2 wp_step; wp_step; (eapply wp_deref; [apply lookup_insert_eq|]);
  do 2 wp_step; unfold getitem; rewrite Hid;
  do 2 wp_step; rewrite Hasg;
  do 2 wp_step; rewrite Htr; do 2 wp_step; do 2 wp_step;
  cbn [find_terminating]; rewrite StrFacts.find_gt_contains;
  fold terminating_marker; rewrite Hmark;
  do 2 wp_step; rewrite Hhook;
  do 2 wp_step; do 2 wp_step; wp_step;
  (apply wp_frameless; [apply frameless_container_instance_task_status|]).

Section HandlerProperties.

Variable env : Env.

(** C5. An event whose message has no [LifecycleTransition], or one whose
    value is not a string that contains the terminating marker: the handler
    writes log lines and does nothing else, so it calls no client at all. *)
Theorem C5_other_events_no_api_call (event : sns_record) h :
  (forall s, Message event !! "LifecycleTransition" = Some (VStr s) ->
             Str.contains terminating_marker s = false) ->
  Forall (fun e => is_log e = true) (events (lambda_handler env event h)).
Proof.
  intros Hnot.
  change (wp (lambda_handler env event) h
            (fun _ _ evs => Forall (fun e => is_log e = true) evs)).
  unfold lambda_handler.
  do 2 wp_step. wp_step. eapply wp_deref; [apply lookup_insert_eq|].
  do 2 wp_step. unfold getitem.
  destruct (Message event !! "EC2InstanceId") as [id|]; [|constructor].
  do 2 wp_step.
  destruct (Message event !! "AutoScalingGroupName") as [asg|]; [|constructor].
  do 2 wp_step.
  destruct (Message event !! "LifecycleTransition") as [transition|] eqn:Htr.
  - do 2 wp_step. do 2 wp_step.
    destruct transition as [| | |s| | |]; try solve [repeat constructor].
    cbn [find_terminating]. rewrite StrFacts.find_gt_contains.
    fold terminating_marker. rewrite (Hnot s eq_refl).
    wp_step. repeat constructor.
  - wp_step. repeat constructor.
Qed.

(** C10. A terminating notice without [LifecycleHookName]: the handler
    raises [KeyError] (for the hook name itself when the instance and group
    fields are there) having written log lines only, so before any call to
    the cluster manager, the topic or the autoscaling service. *)
Theorem C10_missing_hook_name_raises_before_calls (event : sns_record) h s :
  Message event !! "LifecycleTransition" = Some (VStr s) ->
  Str.contains terminating_marker s = true ->
  Message event !! "LifecycleHookName" = None ->
  let o := lambda_handler env event h in
  (exists key, res o = Raise (KeyError key))
  /\ Forall (fun e => is_log e = true) (events o)
  /\ (is_Some (Message event !! "EC2InstanceId") ->
      is_Some (Message event !! "AutoScalingGroupName") ->
      res o = Raise (KeyError "LifecycleHookName")).
Proof.
  intros Htr Hmark Hhook o. subst o.
  change (wp (lambda_handler env event) h
            (fun r _ evs =>
               (exists key, r = Raise (KeyError key))
               /\ Forall (fun e => is_log e = true) evs
               /\ (is_Some (Message event !! "EC2InstanceId") ->
                   is_Some (Message event !! "AutoScalingGroupName") ->
                   r = Raise (KeyError "LifecycleHookName")))).
  unfold lambda_handler.
  do 2 wp_step. wp_step. eapply wp_deref; [apply lookup_insert_eq|].
  do 2 wp_step. unfold getitem.
  destruct (Message event !! "EC2InstanceId") as [id|].
  2:{ split; [eexists; reflexivity|]. split; [constructor|].
      intros [? [=]]. }
  do 2 wp_step.
  destruct (Message event !! "AutoScalingGroupName") as [asg|].
  2:{ split; [eexists; reflexivity|]. split; [constructor|].
      intros _ [? [=]]. }
  do 2 wp_step. rewrite Htr. do 2 wp_step. do 2 wp_step.
  cbn [find_terminating]. rewrite StrFacts.find_gt_contains.
  fold terminating_marker. rewrite Hmark.
  do 2 wp_step. rewrite Hhook.
  split; [eexists; reflexivity|]. split; [repeat constructor|]. reflexivity.
Qed.

(** A status check neither publishes nor completes. *)
Lemma cluster_query_not_dispatch (evs : list effect) :
  Forall (fun e => is_cluster_query e = true) evs ->
  List.filter is_publish evs = [] /\ List.filter is_completion evs = [].
Proof.
  induction 1 as [|e evs He _ [IHp IHc]]; [split; reflexivity|].
  cbn [List.filter]. rewrite IHp, IHc.
  destruct e; try discriminate He; split; reflexivity.
Qed.

(** C7. A terminating notice whose status check finds no task left: when
    the completion call is refused with a [ClientError], the handler logs the
    error and returns normally, having called the completion once and
    published nothing; an exception of any other class leaves the handler. *)
Theorem C7_completion_client_error_swallowed
    (event : sns_record) h id asg hook s app :
  Message event !! "EC2InstanceId" = Some id ->
  Message event !! "AutoScalingGroupName" = Some asg ->
  Message event !! "LifecycleHookName" = Some hook ->
  Message event !! "LifecycleTransition" = Some (VStr s) ->
  Str.contains terminating_marker s = true ->
  res (container_instance_task_status env id ∅) = Ok (0, app) ->
  let o := lambda_handler env event h in
  let completion := ASG_complete_lifecycle_action hook asg "CONTINUE" id in
  (forall msg,
      asg_complete_lifecycle_action env hook asg "CONTINUE" id
        = inl (ClientError msg) ->
      res o = Ok tt
      /\ List.filter is_completion (events o) = [completion]
      /\ List.filter is_publish (events o) = []
      /\ last (events o) = Some (Log "ERROR" "error"))
  /\ (forall e,
        asg_complete_lifecycle_action env hook asg "CONTINUE" id = inl e ->
        (forall msg, e ≠ ClientError msg) ->
        res o = Raise e
        /\ List.filter is_completion (events o) = [completion]
        /\ List.filter is_publish (events o) = []).
Proof.
  intros Hid Hasg Hhook Htr Hmark Hcheck o completion. subst o completion.
  pose proof (emits_container_instance_task_status env id ∅) as Hq.
  apply cluster_query_not_dispatch in Hq as [Hqp Hqc].
  split.
  - intros msg Hrefused.
    change (wp (lambda_handler env event) h
              (fun r _ evs =>
                 r = Ok tt
                 /\ List.filter is_completion evs
                    = [ASG_complete_lifecycle_action hook asg "CONTINUE" id]
                 /\ List.filter is_publish evs = []
                 /\ last evs = Some (Log "ERROR" "error"))).
    handler_to_status_check Hid Hasg Hhook Htr Hmark.
    rewrite Hcheck. lazy beta iota.
    wp_step.
    destruct app as [other|];
      [eapply wp_dict_update; [apply lookup_insert_eq|] | wp_step].
    all: lazy beta iota; cbn [Z.eqb]; do 2 wp_step.
    all: unfold complete_lifecycle; do 2 wp_step; rewrite Hrefused; wp_step.
    all: rewrite !List.filter_app, Hqp, Hqc, !last_app.
    all: repeat split; reflexivity.
  - intros e Hfailed Hclass.
    change (wp (lambda_handler env event) h
              (fun r _ evs =>
                 r = Raise e
                 /\ List.filter is_completion evs
                    = [ASG_complete_lifecycle_action hook asg "CONTINUE" id]
                 /\ List.filter is_publish evs = [])).
    handler_to_status_check Hid Hasg Hhook Htr Hmark.
    rewrite Hcheck. lazy beta iota.
    wp_step.
    destruct app as [other|];
      [eapply wp_dict_update; [apply lookup_insert_eq|] | wp_step].
    all: lazy beta iota; cbn [Z.eqb]; do 2 wp_step.
    all: unfold complete_lifecycle; do 2 wp_step; rewrite Hfailed.
    all: destruct e as [| | | | |msg|]; try (exfalso; apply (Hclass msg); reflexivity).
    all: wp_step.
    all: rewrite !List.filter_app, Hqp, Hqc.
    all: repeat split; reflexivity.
Qed.

(** The resolved reference is merged under its own key: the count the
    publisher reads is the one of the notice. *)
Lemma current_retry_count_merge (arn : string) (d : dict) :
  current_retry_count ({[ "container_instance_id" := VStr arn ]} ∪ d)
  = current_retry_count d.
Proof.
  unfold current_retry_count. rewrite lookup_union_r; [reflexivity|].
  apply lookup_singleton_ne. discriminate.
Qed.


End HandlerProperties.

(** ** Properties of the cluster resolver *)

Section ResolverProperties.

(** What the resolver returns on user data whose marker tokens all have an
    ['=']: the value of the last of them, and "default" when there is
    none. *)
Lemma cluster_name_of_userdata_ok (userdata_decoded : string) h :
  let tokens := Str.split userdata_decoded in
  Forall (fun t => mentions_cluster t = true -> Str.has_char "=" t = true) tokens ->
  res (cluster_name_of_userdata userdata_decoded h) =
    Ok (match last (filter (fun t => mentions_cluster t = true) tokens) with
        | Some t => assigned t
        | None => "default"
        end).
Proof. intros tokens Hall. apply scan_tokens_ok. exact Hall. Qed.

Lemma cluster_name_of_userdata_default (userdata_decoded : string) h :
  Forall (fun t => mentions_cluster t = false) (Str.split userdata_decoded) ->
  res (cluster_name_of_userdata userdata_decoded h) = Ok "default".
Proof.
  intros Hnone. rewrite cluster_name_of_userdata_ok.
  - replace (filter _ _) with (@nil string); [reflexivity|].
    symmetry. induction Hnone as [|t l Ht _ IH]; [reflexivity|].
    rewrite filter_cons, decide_False; [exact IH|]. rewrite Ht. discriminate.
  - eapply Forall_impl; [exact Hnone|]. intros t Ht Hm. congruence.
Qed.

(** Either every marker token has an ['='], or one of them has none. *)
Lemma tokens_all_assign_or_not (toks : list string) :
  Forall (fun t => mentions_cluster t = true -> Str.has_char "=" t = true) toks
  \/ Exists (fun t => mentions_cluster t = true /\ Str.has_char "=" t = false) toks.
Proof.
  induction toks as [|t toks [IH|IH]].
  - left. constructor.
  - destruct (mentions_cluster t) eqn:Hm, (Str.has_char "=" t) eqn:He.
    + left. constructor; [intros _; exact He|exact IH].
    + right. left. split; assumption.
    + left. constructor; [intros Ht; congruence|exact IH].
    + left. constructor; [intros Ht; congruence|exact IH].
  - right. right. exact IH.
Qed.

(** The spec's example: the sample user data resolves to its cluster. *)
Lemma sample_userdata_resolves :
  res (cluster_name_of_userdata Sample.userdata ∅) = Ok "prod-cluster".
Proof. reflexivity. Qed.

Lemma no_userdata_resolves_to_default :
  res (cluster_name_of_userdata "" ∅) = Ok "default".
Proof. reflexivity. Qed.

(** C6 fails on the code. User data that assigns the cluster and also
    mentions the marker in a comment: the token [ECS_CLUSTER=prod-cluster] is
    there, yet the resolver raises [IndexError] at the comment's token, which
    has no ['='], and returns no cluster name. *)
Theorem C6_comment_token_breaks_resolution :
  let userdata := Sample.userdata_with_comment in
  "ECS_CLUSTER=prod-cluster" ∈ Str.split userdata
  /\ res (cluster_name_of_userdata userdata ∅) = Raise IndexError
  /\ events (cluster_name_of_userdata userdata ∅) = [].
Proof.
  cbv zeta. split; [|split; reflexivity].
  vm_compute. do 5 right. left.
Qed.

Variable env : Env.

(** C9. User data one of whose tokens mentions the marker and has no
    ['=']: the resolver raises [IndexError], and nothing catches it: the
    status check that called it raises it, and so does the handler of a
    terminating notice. And with several marker tokens, a name that is
    returned is the value of the last of them; it is returned when every
    marker token has an ['=']. *)
Theorem C9_marker_without_equals_raises_last_token_wins
    (ec2_instance_id : value) h userdata :
  ec2_describe_instance_attribute env ec2_instance_id = inr userdata ->
  let tokens := Str.split (default "" userdata) in
  ((exists token, token ∈ tokens /\ mentions_cluster token = true
                  /\ Str.has_char "=" token = false) ->
   res (get_ecs_cluster_name env ec2_instance_id h) = Raise IndexError
   /\ res (container_instance_task_status env ec2_instance_id h) = Raise IndexError
   /\ (forall event asg hook s,
         Message event !! "EC2InstanceId" = Some ec2_instance_id ->
         Message event !! "AutoScalingGroupName" = Some asg ->
         Message event !! "LifecycleHookName" = Some hook ->
         Message event !! "LifecycleTransition" = Some (VStr s) ->
         Str.contains terminating_marker s = true ->
         res (lambda_handler env event h) = Raise IndexError))
  /\ (forall before token after,
        tokens = (before ++ token :: after)%list ->
        mentions_cluster token = true ->
        Forall (fun t => mentions_cluster t = false) after ->
        (forall name,
            res (get_ecs_cluster_name env ec2_instance_id h) = Ok name ->
            name = assigned token
            /\ subscript (Str.split_on "=" token) 1 = Ok name)
        /\ (Forall (fun t => mentions_cluster t = true -> Str.has_char "=" t = true)
                   tokens ->
            res (get_ecs_cluster_name env ec2_instance_id h) = Ok (assigned token))).
Proof.
  intros Hud tokens.
  assert (Hres : forall h0, res (get_ecs_cluster_name env ec2_instance_id h0)
                 = res (cluster_name_of_userdata (default "" userdata) h0)).
  { intros h0. unfold get_ecs_cluster_name, bind, call, bind.
    rewrite Hud. cbn [emit ret res store events].
    destruct (res (cluster_name_of_userdata (default "" userdata) h0)); reflexivity. }
  split.
  - intros (token & Hin & Hm & Hno).
    assert (Hraise : forall h0,
               res (get_ecs_cluster_name env ec2_instance_id h0) = Raise IndexError).
    { intros h0. rewrite Hres. apply scan_tokens_raise. apply Exists_exists.
      exists token. auto. }
    assert (Hcheck : forall h0,
               res (container_instance_task_status env ec2_instance_id h0)
               = Raise IndexError).
    { intros h0. unfold container_instance_task_status. unfold bind at 1.
      rewrite Hraise. reflexivity. }
    split; [apply Hraise|]. split; [apply Hcheck|].
    intros event asg hook s Hid Hasg Hhook Htr Hmark.
    change (wp (lambda_handler env event) h (fun r _ _ => r = Raise IndexError)).
    handler_to_status_check Hid Hasg Hhook Htr Hmark.
    rewrite Hcheck. reflexivity.
  - intros before token after Htokens Hm Hafter.
    assert (Hlast : last (filter (fun t => mentions_cluster t = true) tokens)
                    = Some token).
    { rewrite Htokens, filter_app, filter_cons.
      rewrite decide_True by exact Hm.
      replace (filter _ after) with (@nil string); [apply last_snoc|].
      symmetry. clear -Hafter. induction Hafter as [|t l Ht _ IH]; [reflexivity|].
      rewrite filter_cons, decide_False; [exact IH|]. rewrite Ht. discriminate. }
    assert (Hok : Forall (fun t => mentions_cluster t = true -> Str.has_char "=" t = true)
                    tokens ->
                  res (get_ecs_cluster_name env ec2_instance_id h) = Ok (assigned token)).
    { intros Hall. rewrite Hres, cluster_name_of_userdata_ok by exact Hall.
      fold tokens. rewrite Hlast. reflexivity. }
    split; [|exact Hok].
    intros name Hname.
    destruct (tokens_all_assign_or_not tokens) as [Hall|Hbad].
    + rewrite (Hok Hall) in Hname. injection Hname as <-. split; [reflexivity|].
      rewrite StrFacts.subscript_split_on_1.
      rewrite Htokens in Hall.
      apply Forall_app in Hall as [_ Hall]. apply Forall_cons in Hall as [Heq _].
      rewrite (Heq Hm). reflexivity.
    + rewrite Hres in Hname. unfold cluster_name_of_userdata in Hname.
      fold tokens in Hname. rewrite (scan_tokens_raise _ _ _ Hbad) in Hname.
      discriminate Hname.
Qed.

End ResolverProperties.


(** ** More on the backoff delay *)

Section BackoffMore.

Lemma Qinv_le_contravar (a b : Q) : (0 < a)%Q -> (a <= b)%Q -> (/ b <= / a)%Q.
Proof.
  intros Ha Hab. apply Qle_lteq in Hab as [Hlt|Heq].
  - apply Qlt_le_weak.
    assert (Hb : (0 < b)%Q) by (eapply Qlt_trans; eassumption).
    apply (proj1 (Qinv_lt_contravar a b Ha Hb)). exact Hlt.
  - rewrite Heq. apply Qle_refl.
Qed.

Lemma pow2_Z_pos (n : Z) : 0 <= n -> (1 <= inject_Z (2 ^ n))%Q.
Proof.
  intros Hn. change 1%Q with (inject_Z 1). rewrite <- Zle_Qle.
  change 1 with (2 ^ 0). apply Z.pow_le_mono_r; lia.
Qed.

(** The power is never negative, and positive down to the least
    subnormal. *)
Lemma pow2_as_float_nonneg (retry_count : Z) (p : Q) :
  pow2_as_float retry_count = Ok p ->
  (0 <= p)%Q /\ (-1074 <= retry_count -> (0 < p)%Q).
Proof.
  unfold pow2_as_float.
  destruct (0 <=? retry_count) eqn:H0.
  - destruct (retry_count <? 1024); [|discriminate]. intros [= <-].
    apply Z.leb_le in H0. pose proof (pow2_Z_pos retry_count H0).
    split; [|intros _]; lra.
  - apply Z.leb_gt in H0.
    destruct (-1074 <=? retry_count) eqn:H1.
    + intros [= <-].
      assert (Hpos : (0 < / inject_Z (2 ^ (- retry_count)))%Q).
      { apply Qinv_lt_0_compat.
        pose proof (pow2_Z_pos (- retry_count) ltac:(lia)). lra. }
      split; [|intros _]; lra.
    + apply Z.leb_gt in H1.
      destruct (- float_int_limit <? retry_count); [|discriminate].
      intros [= <-]. split; [apply Qle_refl|]. intros Hge. lia.
Qed.

(** The power grows with the exponent, across the changes of regime at
    -1074 and at 0. *)
Lemma pow2_as_float_mono (rc rc' : Z) (p p' : Q) :
  rc <= rc' ->
  pow2_as_float rc = Ok p -> pow2_as_float rc' = Ok p' -> (p <= p')%Q.
Proof.
  intros Hle Hp Hp'.
  pose proof (pow2_as_float_nonneg rc' p' Hp') as [Hnn' _].
  revert Hp Hp'. unfold pow2_as_float.
  destruct (0 <=? rc) eqn:H0.
  - apply Z.leb_le in H0.
    assert (H0' : (0 <=? rc') = true) by (apply Z.leb_le; lia). rewrite H0'.
    destruct (rc <? 1024); [|discriminate].
    destruct (rc' <? 1024); [|discriminate].
    intros [= <-] [= <-]. rewrite <- Zle_Qle.
    apply Z.pow_le_mono_r; lia.
  - apply Z.leb_gt in H0.
    destruct (-1074 <=? rc) eqn:H1.
    + apply Z.leb_le in H1.
      assert (H1' : (-1074 <=? rc') = true) by (apply Z.leb_le; lia).
      destruct (0 <=? rc') eqn:H0'.
      * destruct (rc' <? 1024); [|discriminate].
        intros [= <-] [= <-]. apply Z.leb_le in H0'.
        pose proof (pow2_Z_pos (- rc) ltac:(lia)) as Ha.
        pose proof (pow2_Z_pos rc' H0') as Hb.
        assert (Hc : (/ inject_Z (2 ^ (- rc)) <= / 1)%Q)
          by (apply Qinv_le_contravar; [reflexivity|exact Ha]).
        change (/ 1)%Q with 1%Q in Hc. lra.
      * rewrite H1'. intros [= <-] [= <-]. apply Z.leb_gt in H0'.
        apply Qinv_le_contravar.
        -- pose proof (pow2_Z_pos (- rc') ltac:(lia)). lra.
        -- rewrite <- Zle_Qle. apply Z.pow_le_mono_r; lia.
    + destruct (- float_int_limit <? rc); [|discriminate].
      intros [= <-] _. exact Hnn'.
Qed.

Lemma py_min_mono (a a' b : Q) : (a <= a')%Q -> (py_min a b <= py_min a' b)%Q.
Proof.
  intros Hle. unfold py_min.
  destruct (Qle_bool a b) eqn:Ha, (Qle_bool a' b) eqn:Ha'.
  - exact Hle.
  - apply Qle_bool_iff in Ha. exact Ha.
  - apply Qle_bool_iff in Ha'.
    assert (Hab : (a <= b)%Q) by lra. apply Qle_bool_iff in Hab. congruence.
  - apply Qle_refl.
Qed.

Lemma py_min_le_r (a b : Q) : (py_min a b <= b)%Q.
Proof.
  unfold py_min. destruct (Qle_bool a b) eqn:Ha.
  - apply Qle_bool_iff. exact Ha.
  - apply Qle_refl.
Qed.

Lemma py_min_pos (a b : Q) : (0 < a)%Q -> (0 < b)%Q -> (0 < py_min a b)%Q.
Proof. intros Ha Hb. unfold py_min. destruct (Qle_bool a b); assumption. Qed.

Variable env : Env.

(** X1. For every integer count for which there is a delay, negative ones
    included, the publisher sleeps exactly once and for a time from 0 to 30
    seconds, so never for a negative time; the time is above 0 when the
    count is at least -1074 or the draw is not 0. *)
Theorem X1_sleep_between_0_and_30 (message : loc) topic_arn h d rc :
  h !! message = Some d ->
  current_retry_count d = Some rc ->
  - float_int_limit < rc < 1024 ->
  0 <= randint_0_1000 env <= 1000 ->
  exists t,
    List.filter is_sleep (events (publish_to_sns env message topic_arn h)) = [Sleep t]
    /\ (0 <= t)%Q /\ (t <= 30)%Q
    /\ (-1074 <= rc \/ 0 < randint_0_1000 env -> (0 < t)%Q).
Proof.
  intros Hl Hrc Hrange Hk.
  destruct (sleep_time_total rc (randint_0_1000 env) Hrange) as [t Ht].
  exists t.
  rewrite (publish_to_sns_ok env message topic_arn h d rc t Hl Hrc Ht).
  split; [reflexivity|].
  unfold sleep_time in Ht.
  destruct (pow2_as_float rc) as [p|e] eqn:Hp; [|discriminate].
  injection Ht as <-.
  pose proof (pow2_as_float_nonneg rc p Hp) as [Hnn Hpos].
  pose proof (jitter_bounds _ Hk) as [Hj _].
  assert (Hsum : (0 <= p + inject_Z (randint_0_1000 env) / 1000)%Q) by lra.
  split; [|split; [apply py_min_le_r|]].
  - unfold py_min. destruct (Qle_bool _ 30); [exact Hsum|discriminate].
  - intros Hcase. apply py_min_pos; [|reflexivity].
    destruct Hcase as [Hge|Hdraw].
    + specialize (Hpos Hge). lra.
    + assert (Hjpos : (0 < inject_Z (randint_0_1000 env) / 1000)%Q).
      { apply Qlt_shift_div_l; [reflexivity|].
        rewrite Zlt_Qlt in Hdraw. change (inject_Z 0) with 0%Q in Hdraw. lra. }
      lra.
Qed.

(** X2. The backoff never shrinks: for the same draw, a larger count gives
    a delay at least as long, from negative counts up to 1023. *)
Theorem X2_sleep_time_monotone (rc rc' k : Z) (t t' : Q) :
  rc <= rc' ->
  sleep_time rc k = Ok t ->
  sleep_time rc' k = Ok t' ->
  (t <= t')%Q.
Proof.
  intros Hle. unfold sleep_time.
  destruct (pow2_as_float rc) as [p|e] eqn:Hp; [|discriminate].
  destruct (pow2_as_float rc') as [p'|e'] eqn:Hp'; [|discriminate].
  intros [= <-] [= <-].
  pose proof (pow2_as_float_mono rc rc' p p' Hle Hp Hp') as Hmono.
  apply py_min_mono. lra.
Qed.


(** X4. The publisher's result is the topic's answer, and the count is
    raised in the caller's message before the topic is asked: for a count
    that is absent or an integer above [- float_int_limit] and below 1024,
    when the publish call raises, the publisher raises the same exception,
    after one sleep and one publish attempt, and the message object already
    holds the raised count though nothing was delivered. *)
Theorem X4_publish_failure_after_update (message : loc) topic_arn h d rc e :
  h !! message = Some d ->
  current_retry_count d = Some rc ->
  - float_int_limit < rc < 1024 ->
  sns_publish env topic_arn (with_retry_count (rc + 1) d) retry_subject = inl e ->
  let o := publish_to_sns env message topic_arn h in
  res o = Raise e
  /\ List.filter is_publish (events o) =
       [SNS_publish topic_arn (with_retry_count (rc + 1) d) retry_subject]
  /\ length (List.filter is_sleep (events o)) = 1%nat
  /\ store o !! message = Some (with_retry_count (rc + 1) d).
Proof.
  intros Hl Hrc Hlt Hfail o. subst o.
  destruct (sleep_time_total rc (randint_0_1000 env) Hlt) as [t Ht].
  rewrite (publish_to_sns_ok env message topic_arn h d rc t Hl Hrc Ht).
  cbn [res store events]. rewrite Hfail, lookup_insert_eq.
  repeat split; reflexivity.
Qed.

End BackoffMore.


(** ** More on the drain status checker *)

Section CheckerMore.

Lemma api_calls_app (a b : list effect) :
  api_calls (a ++ b) = (api_calls a ++ api_calls b)%list.
Proof. apply List.filter_app. Qed.

Lemma api_calls_logs (evs : list effect) :
  Forall (fun e => is_log e = true) evs -> api_calls evs = [].
Proof.
  induction 1 as [|e evs He _ IH]; [reflexivity|].
  unfold api_calls in *. cbn [List.filter]. rewrite He. exact IH.
Qed.

Variable env : Env.
Variable ec2_instance_id : value.

(** The calls of the loop when each transition it asks for is accepted: one
    per matching instance that is not DRAINING, in the order described. *)
Lemma mark_draining_calls c cis acc h :
  (forall ci, ci ∈ cis -> is_match ec2_instance_id ci = true ->
              String.eqb (status ci) "DRAINING" = false ->
              ecs_update_container_instances_state env c
                [containerInstanceArn ci] "DRAINING" = inr tt) ->
  api_calls (events (mark_draining env ec2_instance_id c cis acc h)) =
    map (draining_call c) (List.filter (needs_draining ec2_instance_id) cis).
Proof.
  revert acc h. induction cis as [|ci cis IH]; intros acc h Hupd; [reflexivity|].
  assert (Hrest : forall ci', ci' ∈ cis -> is_match ec2_instance_id ci' = true ->
              String.eqb (status ci') "DRAINING" = false ->
              ecs_update_container_instances_state env c
                [containerInstanceArn ci'] "DRAINING" = inr tt).
  { intros ci' Hin. apply Hupd. right. exact Hin. }
  pose proof (Hupd ci (list_elem_of_here _ _)) as Hci.
  cbn [mark_draining List.filter]. unfold needs_draining at 1.
  unfold is_match in *.
  destruct (str_eq_value (ec2InstanceId ci) ec2_instance_id) eqn:Hm;
    cbn [andb]; [|apply (IH _ _ Hrest)].
  destruct (String.eqb (status ci) "DRAINING") eqn:Hs; cbn [negb map].
  - unfold bind at 1. cbn [log emit res store events].
    rewrite api_calls_app, (IH _ _ Hrest). reflexivity.
  - unfold bind at 1, bind at 1, call, bind.
    cbn [log emit res store events]. rewrite (Hci eq_refl eq_refl).
    cbn [ret res store events].
    rewrite !api_calls_app, (IH _ _ Hrest). reflexivity.
Qed.

(** The loop when a transition is refused: it stops there. *)
Lemma mark_draining_refused c before ci after acc h e :
  (forall ci', ci' ∈ before -> is_match ec2_instance_id ci' = true ->
               String.eqb (status ci') "DRAINING" = false ->
               ecs_update_container_instances_state env c
                 [containerInstanceArn ci'] "DRAINING" = inr tt) ->
  needs_draining ec2_instance_id ci = true ->
  ecs_update_container_instances_state env c
    [containerInstanceArn ci] "DRAINING" = inl e ->
  let o := mark_draining env ec2_instance_id c (before ++ ci :: after) acc h in
  res o = Raise e
  /\ api_calls (events o) =
       (map (draining_call c) (List.filter (needs_draining ec2_instance_id) before)
          ++ [draining_call c ci])%list.
Proof.
  intros Hupd Hneeds Hrefused. cbv zeta.
  revert acc h. induction before as [|b before IH]; intros acc h.
  - cbn [app mark_draining List.filter map].
    unfold needs_draining, is_match in Hneeds.
    apply andb_prop in Hneeds as [Hm Hs]. rewrite Hm.
    apply negb_true_iff in Hs. rewrite Hs.
    unfold bind, call, bind.
    cbn [log emit res store events]. rewrite Hrefused.
    cbn [raise res store events]. split; reflexivity.
  - assert (Hrest : forall ci', ci' ∈ before -> is_match ec2_instance_id ci' = true ->
              String.eqb (status ci') "DRAINING" = false ->
              ecs_update_container_instances_state env c
                [containerInstanceArn ci'] "DRAINING" = inr tt).
    { intros ci' Hin. apply Hupd. right. exact Hin. }
    pose proof (Hupd b (list_elem_of_here _ _)) as Hb.
    cbn [app mark_draining List.filter].
    replace (needs_draining ec2_instance_id b)
      with (str_eq_value (ec2InstanceId b) ec2_instance_id
            && negb (String.eqb (status b) "DRAINING")) by reflexivity.
    unfold is_match in Hb.
    destruct (str_eq_value (ec2InstanceId b) ec2_instance_id) eqn:Hm;
      cbn [andb]; [|apply (IH Hrest)].
    destruct (String.eqb (status b) "DRAINING") eqn:Hs; cbn [negb map].
    + unfold bind. cbn [log emit res store events].
      destruct (IH Hrest (Some (containerInstanceArn b),
                  Some {[ "container_instance_id" := VStr (containerInstanceArn b) ]}) h)
        as [Hr Hc].
      rewrite Hr. cbn [res events]. rewrite api_calls_app, Hc. split; reflexivity.
    + unfold bind, call, bind.
      cbn [log emit res store events]. rewrite (Hb eq_refl eq_refl).
      cbn [ret res store events].
      destruct (IH Hrest (Some (containerInstanceArn b),
                  Some {[ "container_instance_id" := VStr (containerInstanceArn b) ]}) h)
        as [Hr Hc].
      rewrite Hr. cbn [res events]. rewrite !api_calls_app, Hc. split; reflexivity.
Qed.

(** Parsing the user data calls no client. *)
Lemma api_calls_cluster_name_of_userdata text h :
  api_calls (events (cluster_name_of_userdata text h)) = [].
Proof. apply api_calls_logs. apply emits_scan_tokens. Qed.

(** X5. The client calls of a status check that goes through, in order:
    the user data is read, the instances are listed and described, then one
    transition to DRAINING is asked for every instance that matches and is
    not DRAINING already (none for one that is), and last the tasks of the
    last matching instance are listed, if any instance matches. *)
Theorem X5_status_check_call_sequence h userdata cluster arns instances :
  ec2_describe_instance_attribute env ec2_instance_id = inr userdata ->
  res (cluster_name_of_userdata (default "" userdata) ∅) = Ok cluster ->
  ecs_list_container_instances env cluster = inr arns ->
  ecs_describe_container_instances env cluster arns = inr instances ->
  (forall ci, ci ∈ instances -> is_match ec2_instance_id ci = true ->
              String.eqb (status ci) "DRAINING" = false ->
              ecs_update_container_instances_state env cluster
                [containerInstanceArn ci] "DRAINING" = inr tt) ->
  api_calls (events (container_instance_task_status env ec2_instance_id h)) =
    ([EC2_describe_instance_attribute ec2_instance_id "userData";
      ECS_list_container_instances cluster;
      ECS_describe_container_instances cluster arns]
     ++ map (draining_call cluster)
            (List.filter (needs_draining ec2_instance_id) instances)
     ++ match matched_instance ec2_instance_id instances with
        | Some ci => [ECS_list_tasks cluster (containerInstanceArn ci)]
        | None => []
        end)%list.
Proof.
  intros Hud Hcluster Hlist Hdescribe Hupd.
  match goal with
  | |- _ = ?X =>
      change (wp (container_instance_task_status env ec2_instance_id) h
                 (fun _ _ evs => api_calls evs = X))
  end.
  unfold container_instance_task_status, get_ecs_cluster_name.
  do 2 wp_step. wp_step. rewrite Hud.
  apply wp_frameless; [apply frameless_scan_tokens|].
  rewrite Hcluster.
  do 2 wp_step. rewrite Hlist.
  do 2 wp_step. rewrite Hdescribe.
  wp_step. apply wp_frameless; [apply frameless_mark_draining|].
  rewrite (mark_draining_res _ _ _ _ _ _ Hupd).
  pose proof (mark_draining_calls cluster instances (None, None) ∅ Hupd) as Hcalls.
  pose proof (api_calls_cluster_name_of_userdata (default "" userdata) ∅) as Hscan.
  destruct (matched_instance ec2_instance_id instances) as [ci|].
  - do 2 wp_step.
    destruct (ecs_list_tasks env cluster (containerInstanceArn ci)) as [e|tasks].
    + rewrite !api_calls_app, Hscan, Hcalls. reflexivity.
    + do 2 wp_step. destruct (0 <? _); wp_step.
      all: rewrite !api_calls_app, Hscan, Hcalls.
      all: cbn [api_calls List.filter is_log is_sleep negb andb app].
      all: rewrite ?app_nil_r; reflexivity.
  - do 3 wp_step.
    rewrite !api_calls_app, Hscan, Hcalls.
    cbn [api_calls List.filter is_log is_sleep negb andb app].
    rewrite ?app_nil_r. reflexivity.
Qed.

(** X6. A refused transition to DRAINING ends the status check: it raises
    the exception of the refusal, asks for no further transition and lists
    no tasks. *)
Theorem X6_refused_transition_propagates
    h userdata cluster arns before ci after e :
  ec2_describe_instance_attribute env ec2_instance_id = inr userdata ->
  res (cluster_name_of_userdata (default "" userdata) ∅) = Ok cluster ->
  ecs_list_container_instances env cluster = inr arns ->
  ecs_describe_container_instances env cluster arns
    = inr (before ++ ci :: after)%list ->
  (forall ci', ci' ∈ before -> is_match ec2_instance_id ci' = true ->
               String.eqb (status ci') "DRAINING" = false ->
               ecs_update_container_instances_state env cluster
                 [containerInstanceArn ci'] "DRAINING" = inr tt) ->
  needs_draining ec2_instance_id ci = true ->
  ecs_update_container_instances_state env cluster
    [containerInstanceArn ci] "DRAINING" = inl e ->
  let o := container_instance_task_status env ec2_instance_id h in
  res o = Raise e
  /\ api_calls (events o) =
       ([EC2_describe_instance_attribute ec2_instance_id "userData";
         ECS_list_container_instances cluster;
         ECS_describe_container_instances cluster arns]
        ++ map (draining_call cluster)
               (List.filter (needs_draining ec2_instance_id) before)
        ++ [draining_call cluster ci])%list.
Proof.
  intros Hud Hcluster Hlist Hdescribe Hupd Hneeds Hrefused o. subst o.
  match goal with
  | |- _ = ?R /\ _ = ?X =>
      change (wp (container_instance_task_status env ec2_instance_id) h
                 (fun r _ evs => r = R /\ api_calls evs = X))
  end.
  unfold container_instance_task_status, get_ecs_cluster_name.
  do 2 wp_step. wp_step. rewrite Hud.
  apply wp_frameless; [apply frameless_scan_tokens|].
  rewrite Hcluster.
  do 2 wp_step. rewrite Hlist.
  do 2 wp_step. rewrite Hdescribe.
  wp_step. apply wp_frameless; [apply frameless_mark_draining|].
  destruct (mark_draining_refused cluster before ci after (None, None) ∅ e
              Hupd Hneeds Hrefused) as [Hr Hc].
  rewrite Hr. split; [reflexivity|].
  pose proof (api_calls_cluster_name_of_userdata (default "" userdata) ∅) as Hscan.
  rewrite !api_calls_app, Hscan, Hc. reflexivity.
Qed.

(** X7. A failing lookup ends the status check at once: when reading the
    user data fails no cluster-manager call is made; when listing fails
    nothing is described; when describing fails no transition is asked for
    and no tasks are listed; and when listing the tasks of the matched
    instance fails the check raises that exception. *)
Theorem X7_lookup_failures_propagate h :
  (forall e,
      ec2_describe_instance_attribute env ec2_instance_id = inl e ->
      container_instance_task_status env ec2_instance_id h =
        mkOutcome (Raise e) h
          [EC2_describe_instance_attribute ec2_instance_id "userData"])
  /\ (forall userdata cluster,
        ec2_describe_instance_attribute env ec2_instance_id = inr userdata ->
        res (cluster_name_of_userdata (default "" userdata) ∅) = Ok cluster ->
        let o := container_instance_task_status env ec2_instance_id h in
        (forall e,
            ecs_list_container_instances env cluster = inl e ->
            res o = Raise e
            /\ api_calls (events o) =
                 [EC2_describe_instance_attribute ec2_instance_id "userData";
                  ECS_list_container_instances cluster])
        /\ (forall arns e,
              ecs_list_container_instances env cluster = inr arns ->
              ecs_describe_container_instances env cluster arns = inl e ->
              res o = Raise e
              /\ api_calls (events o) =
                   [EC2_describe_instance_attribute ec2_instance_id "userData";
                    ECS_list_container_instances cluster;
                    ECS_describe_container_instances cluster arns])
        /\ (forall arns instances ci e,
              ecs_list_container_instances env cluster = inr arns ->
              ecs_describe_container_instances env cluster arns = inr instances ->
              (forall ci', ci' ∈ instances -> is_match ec2_instance_id ci' = true ->
                           String.eqb (status ci') "DRAINING" = false ->
                           ecs_update_container_instances_state env cluster
                             [containerInstanceArn ci'] "DRAINING" = inr tt) ->
              matched_instance ec2_instance_id instances = Some ci ->
              ecs_list_tasks env cluster (containerInstanceArn ci) = inl e ->
              res o = Raise e)).
Proof.
  split.
  - intros e Hfail. apply run_eq.
    unfold container_instance_task_status, get_ecs_cluster_name.
    do 2 wp_step. wp_step. rewrite Hfail. repeat split.
  - intros userdata cluster Hud Hcluster o. subst o.
    pose proof (api_calls_cluster_name_of_userdata (default "" userdata) ∅) as Hscan.
    split; [|split].
    + intros e Hfail.
      match goal with
      | |- _ = ?R /\ _ = ?X =>
          change (wp (container_instance_task_status env ec2_instance_id) h
                     (fun r _ evs => r = R /\ api_calls evs = X))
      end.
      unfold container_instance_task_status, get_ecs_cluster_name.
      do 2 wp_step. wp_step. rewrite Hud.
      apply wp_frameless; [apply frameless_scan_tokens|].
      rewrite Hcluster. do 2 wp_step. rewrite Hfail.
      split; [reflexivity|]. rewrite !api_calls_app, Hscan. reflexivity.
    + intros arns e Hlist Hfail.
      match goal with
      | |- _ = ?R /\ _ = ?X =>
          change (wp (container_instance_task_status env ec2_instance_id) h
                     (fun r _ evs => r = R /\ api_calls evs = X))
      end.
      unfold container_instance_task_status, get_ecs_cluster_name.
      do 2 wp_step. wp_step. rewrite Hud.
      apply wp_frameless; [apply frameless_scan_tokens|].
      rewrite Hcluster. do 2 wp_step. rewrite Hlist.
      do 2 wp_step. rewrite Hfail.
      split; [reflexivity|]. rewrite !api_calls_app, Hscan. reflexivity.
    + intros arns instances ci e Hlist Hdescribe Hupd Hci Hfail.
      rewrite (container_instance_task_status_res env ec2_instance_id h
                 userdata cluster arns instances Hud Hcluster Hlist Hdescribe Hupd).
      rewrite Hci, Hfail. reflexivity.
Qed.

End CheckerMore.


(** ** More on the entry point *)

Section HandlerMore.

Variable env : Env.

(** The run of the handler on a terminating notice that has its fields, in
    terms of the runs of the status check, the publisher and the
    completion. *)
Lemma lambda_handler_terminating (event : sns_record) h id asg hook s :
  Message event !! "EC2InstanceId" = Some id ->
  Message event !! "AutoScalingGroupName" = Some asg ->
  Message event !! "LifecycleHookName" = Some hook ->
  Message event !! "LifecycleTransition" = Some (VStr s) ->
  Str.contains terminating_marker s = true ->
  let message := fresh (dom h) in
  let h0 := <[message := Message event]> h in
  let check := container_instance_task_status env id ∅ in
  let pre := (terminating_prologue ++ events check)%list in
  lambda_handler env event h =
    match res check with
    | Raise e => mkOutcome (Raise e) h0 pre
    | Ok (tasks_running, tmp_msg_append) =>
        let h1 :=
          match tmp_msg_append with
          | Some other => <[message := other ∪ Message event]> h0
          | None => h0
          end in
        if tasks_running =? 1 then
          let p := publish_to_sns env message (TopicArn event) h1 in
          mkOutcome
            (match res p with Ok _ => Ok tt | Raise e => Raise e end)
            (store p)
            (pre ++ Log "INFO" "Tasks still running, republish to SNS..."
                 :: events p)
        else if tasks_running =? 0 then
          let c := complete_lifecycle env hook asg id h1 in
          mkOutcome (res c) (store c)
            (pre ++ Log "INFO" "No tasks running. Completing lifecycle action..."
                 :: events c)
        else mkOutcome (Ok tt) h1 pre
    end.
Proof.
  intros Hid Hasg Hhook Htr Hmark message h0 check pre.
  subst message h0 check pre. unfold terminating_prologue.
  destruct (res (container_instance_task_status env id ∅))
    as [[n app]|e] eqn:Hcheck.
  - destruct (n =? 1) eqn:H1; [|destruct (n =? 0) eqn:H0].
    + apply run_eq. handler_to_status_check Hid Hasg Hhook Htr Hmark.
      rewrite Hcheck. lazy beta iota. wp_step.
      destruct app as [other|];
        [eapply wp_dict_update; [apply lookup_insert_eq|] | wp_step].
      all: lazy beta iota; rewrite H1; do 2 wp_step; wp_step.
      all: unfold wp.
      all: match goal with
           | |- context [publish_to_sns env ?l ?t ?st] =>
               destruct (publish_to_sns env l t st) as [[r|e] hp ep]
           end.
      all: cbn [res store events ret].
      all: repeat split; cbn [app]; rewrite <- ?app_assoc, ?app_nil_r; reflexivity.
    + apply run_eq. handler_to_status_check Hid Hasg Hhook Htr Hmark.
      rewrite Hcheck. lazy beta iota. wp_step.
      destruct app as [other|];
        [eapply wp_dict_update; [apply lookup_insert_eq|] | wp_step].
      all: lazy beta iota; rewrite H1, H0; do 2 wp_step.
      all: unfold wp.
      all: repeat split; cbn [app]; rewrite <- ?app_assoc, ?app_nil_r; reflexivity.
    + apply run_eq. handler_to_status_check Hid Hasg Hhook Htr Hmark.
      rewrite Hcheck. lazy beta iota. wp_step.
      destruct app as [other|];
        [eapply wp_dict_update; [apply lookup_insert_eq|] | wp_step].
      all: lazy beta iota; rewrite H1, H0; wp_step.
      all: repeat split; cbn [app]; rewrite <- ?app_assoc, ?app_nil_r; reflexivity.
  - apply run_eq. handler_to_status_check Hid Hasg Hhook Htr Hmark.
    rewrite Hcheck.
    repeat split; cbn [app]; rewrite <- ?app_assoc, ?app_nil_r; reflexivity.
Qed.

(** A status check does not sleep either. *)
Lemma cluster_query_not_sleep (evs : list effect) :
  Forall (fun e => is_cluster_query e = true) evs ->
  List.filter is_sleep evs = [].
Proof.
  induction 1 as [|e evs He _ IH]; [reflexivity|].
  cbn [List.filter]. rewrite IH. destruct e; try discriminate He; reflexivity.
Qed.

(** The status check of an instance the cluster manager does not describe. *)
Lemma container_instance_task_status_untracked
    id h userdata cluster arns instances :
  ec2_describe_instance_attribute env id = inr userdata ->
  res (cluster_name_of_userdata (default "" userdata) ∅) = Ok cluster ->
  ecs_list_container_instances env cluster = inr arns ->
  ecs_describe_container_instances env cluster arns = inr instances ->
  Forall (fun ci => is_match id ci = false) instances ->
  res (container_instance_task_status env id h) = Ok (0, None)
  /\ api_calls (events (container_instance_task_status env id h)) =
       [EC2_describe_instance_attribute id "userData";
        ECS_list_container_instances cluster;
        ECS_describe_container_instances cluster arns].
Proof.
  intros Hud Hcluster Hlist Hdescribe Hnone.
  match goal with
  | |- _ = ?R /\ _ = ?X =>
      change (wp (container_instance_task_status env id) h
                 (fun r _ evs => r = R /\ api_calls evs = X))
  end.
  unfold container_instance_task_status, get_ecs_cluster_name.
  do 2 wp_step. wp_step. rewrite Hud.
  apply wp_frameless; [apply frameless_scan_tokens|].
  rewrite Hcluster. do 2 wp_step. rewrite Hlist.
  do 2 wp_step. rewrite Hdescribe. wp_step.
  eapply wp_eq; [apply mark_draining_no_match; exact Hnone|].
  lazy beta iota. do 3 wp_step. split; [reflexivity|].
  rewrite !api_calls_app, api_calls_cluster_name_of_userdata. reflexivity.
Qed.

(** X8. When the status check of a terminating notice raises, the handler
    raises the same exception: it publishes nothing, completes nothing and
    does not sleep, and its message object is the notice as received. *)
Theorem X8_status_check_failure_propagates
    (event : sns_record) h id asg hook s e :
  Message event !! "EC2InstanceId" = Some id ->
  Message event !! "AutoScalingGroupName" = Some asg ->
  Message event !! "LifecycleHookName" = Some hook ->
  Message event !! "LifecycleTransition" = Some (VStr s) ->
  Str.contains terminating_marker s = true ->
  res (container_instance_task_status env id ∅) = Raise e ->
  let o := lambda_handler env event h in
  res o = Raise e
  /\ List.filter is_publish (events o) = []
  /\ List.filter is_completion (events o) = []
  /\ List.filter is_sleep (events o) = []
  /\ store o !! fresh (dom h) = Some (Message event).
Proof.
  intros Hid Hasg Hhook Htr Hmark Hcheck o. subst o.
  rewrite (lambda_handler_terminating event h id asg hook s Hid Hasg Hhook Htr Hmark).
  cbv zeta. rewrite Hcheck. cbn [res store events].
  pose proof (emits_container_instance_task_status env id ∅) as Hq.
  pose proof (cluster_query_not_sleep _ Hq) as Hqs.
  apply cluster_query_not_dispatch in Hq as [Hqp Hqc].
  rewrite !List.filter_app, Hqp, Hqc, Hqs, lookup_insert_eq.
  repeat split; reflexivity.
Qed.

(** X9. A terminating notice for an instance the cluster manager does not
    describe any more: the handler reads the user data, lists and describes
    the instances and completes the lifecycle action, and calls nothing
    else (no transition, no task listing, no publish); it does not sleep and
    merges nothing into its message. *)
Theorem X9_untracked_instance_completes_at_once
    (event : sns_record) h id asg hook s userdata cluster arns instances :
  Message event !! "EC2InstanceId" = Some id ->
  Message event !! "AutoScalingGroupName" = Some asg ->
  Message event !! "LifecycleHookName" = Some hook ->
  Message event !! "LifecycleTransition" = Some (VStr s) ->
  Str.contains terminating_marker s = true ->
  ec2_describe_instance_attribute env id = inr userdata ->
  res (cluster_name_of_userdata (default "" userdata) ∅) = Ok cluster ->
  ecs_list_container_instances env cluster = inr arns ->
  ecs_describe_container_instances env cluster arns = inr instances ->
  Forall (fun ci => is_match id ci = false) instances ->
  let o := lambda_handler env event h in
  api_calls (events o) =
    [EC2_describe_instance_attribute id "userData";
     ECS_list_container_instances cluster;
     ECS_describe_container_instances cluster arns;
     ASG_complete_lifecycle_action hook asg "CONTINUE" id]
  /\ List.filter is_sleep (events o) = []
  /\ store o !! fresh (dom h) = Some (Message event).
Proof.
  intros Hid Hasg Hhook Htr Hmark Hud Hcluster Hlist Hdescribe Hnone o. subst o.
  rewrite (lambda_handler_terminating event h id asg hook s Hid Hasg Hhook Htr Hmark).
  cbv zeta.
  destruct (container_instance_task_status_untracked id ∅
              userdata cluster arns instances Hud Hcluster Hlist Hdescribe Hnone)
    as [Hres Hcalls].
  pose proof (emits_container_instance_task_status env id ∅) as Hq.
  pose proof (cluster_query_not_sleep _ Hq) as Hqs.
  rewrite Hres. cbn [Z.eqb]. unfold complete_lifecycle, bind.
  cbn [emit res store events].
  destruct (asg_complete_lifecycle_action env hook asg "CONTINUE" id)
    as [[| | | | |msg|]|[]]; cbn [log emit raise res store events].
  all: rewrite !api_calls_app, Hcalls, !List.filter_app, Hqs, lookup_insert_eq.
  all: repeat split; reflexivity.
Qed.

(** X10. A failure of the publish call is not caught, whatever its class,
    [ClientError] included: with tasks left and a count that is absent or
    an integer above [- float_int_limit] and below 1024, the handler raises
    it, after one publish attempt and with no completion call. *)
Theorem X10_publish_failure_propagates
    (event : sns_record) h id asg hook s other rc e :
  Message event !! "EC2InstanceId" = Some id ->
  Message event !! "AutoScalingGroupName" = Some asg ->
  Message event !! "LifecycleHookName" = Some hook ->
  Message event !! "LifecycleTransition" = Some (VStr s) ->
  Str.contains terminating_marker s = true ->
  res (container_instance_task_status env id ∅) = Ok (1, Some other) ->
  current_retry_count (other ∪ Message event) = Some rc ->
  - float_int_limit < rc < 1024 ->
  sns_publish env (TopicArn event)
    (with_retry_count (rc + 1) (other ∪ Message event)) retry_subject = inl e ->
  let o := lambda_handler env event h in
  res o = Raise e
  /\ List.filter is_publish (events o) =
       [SNS_publish (TopicArn event)
          (with_retry_count (rc + 1) (other ∪ Message event)) retry_subject]
  /\ List.filter is_completion (events o) = [].
Proof.
  intros Hid Hasg Hhook Htr Hmark Hcheck Hrc Hlt Hfail o. subst o.
  rewrite (lambda_handler_terminating event h id asg hook s Hid Hasg Hhook Htr Hmark).
  cbv zeta. rewrite Hcheck. cbn [Z.eqb Pos.eqb].
  destruct (sleep_time_total rc (randint_0_1000 env) Hlt) as [t Ht].
  rewrite (publish_to_sns_ok env _ (TopicArn event) _ (other ∪ Message event) rc t
             (lookup_insert_eq _ _ _) Hrc Ht).
  cbn [res store events]. rewrite Hfail.
  pose proof (emits_container_instance_task_status env id ∅) as Hq.
  apply cluster_query_not_dispatch in Hq as [Hqp Hqc].
  rewrite !List.filter_app, Hqp, Hqc.
  repeat split; reflexivity.
Qed.

(** X11. The handler blocks on the retry path only: with tasks left and a
    count that is absent or an integer above [- float_int_limit] and below
    1024, it sleeps exactly once, and before it publishes; with none left
    it does not sleep at all. *)
Theorem X11_sleep_only_before_republish
    (event : sns_record) h id asg hook s :
  Message event !! "EC2InstanceId" = Some id ->
  Message event !! "AutoScalingGroupName" = Some asg ->
  Message event !! "LifecycleHookName" = Some hook ->
  Message event !! "LifecycleTransition" = Some (VStr s) ->
  Str.contains terminating_marker s = true ->
  let evs := events (lambda_handler env event h) in
  (forall other rc,
      res (container_instance_task_status env id ∅) = Ok (1, Some other) ->
      current_retry_count (other ∪ Message event) = Some rc ->
      - float_int_limit < rc < 1024 ->
      exists t,
        List.filter (fun e => is_sleep e || is_publish e) evs =
          [Sleep t;
           SNS_publish (TopicArn event)
             (with_retry_count (rc + 1) (other ∪ Message event)) retry_subject])
  /\ (forall tmp_msg_append,
        res (container_instance_task_status env id ∅) = Ok (0, tmp_msg_append) ->
        List.filter is_sleep evs = []).
Proof.
  intros Hid Hasg Hhook Htr Hmark evs. subst evs.
  rewrite (lambda_handler_terminating event h id asg hook s Hid Hasg Hhook Htr Hmark).
  cbv zeta.
  pose proof (emits_container_instance_task_status env id ∅) as Hq.
  split.
  - intros other rc Hcheck Hrc Hlt.
    rewrite Hcheck. cbn [Z.eqb Pos.eqb].
    destruct (sleep_time_total rc (randint_0_1000 env) Hlt) as [t Ht].
    rewrite (publish_to_sns_ok env _ (TopicArn event) _ (other ∪ Message event) rc t
               (lookup_insert_eq _ _ _) Hrc Ht).
    cbn [res store events]. exists t.
    rewrite !List.filter_app.
    replace (List.filter (fun e => is_sleep e || is_publish e)
               (events (container_instance_task_status env id ∅)))
      with (@nil effect); [reflexivity|].
    symmetry. clear -Hq. induction Hq as [|e l He _ IH]; [reflexivity|].
    cbn [List.filter]. rewrite IH. destruct e; try discriminate He; reflexivity.
  - intros app Hcheck. rewrite Hcheck. cbn [Z.eqb].
    pose proof (cluster_query_not_sleep _ Hq) as Hqs.
    unfold complete_lifecycle, bind. cbn [emit res store events].
    destruct (asg_complete_lifecycle_action env hook asg "CONTINUE" id)
      as [[| | | | |msg|]|[]]; cbn [log emit raise res store events].
    all: rewrite !List.filter_app, Hqs; reflexivity.
Qed.

(** Merging the resolved reference again changes nothing, and a count set
    afresh replaces the one before. *)
Lemma merge_reference_again (arn : string) (n : Z) (d : dict) :
  {[ "container_instance_id" := VStr arn ]}
    ∪ with_retry_count n ({[ "container_instance_id" := VStr arn ]} ∪ d)
  = with_retry_count n ({[ "container_instance_id" := VStr arn ]} ∪ d).
Proof.
  apply map_eq. intros key. unfold with_retry_count.
  destruct (decide (key = "container_instance_id")) as [->|Hne].
  - rewrite (lookup_union_Some_l _ _ _ (VStr arn));
      [|apply lookup_singleton_eq].
    rewrite lookup_insert_ne by discriminate.
    rewrite (lookup_union_Some_l _ _ _ (VStr arn)); [reflexivity|].
    apply lookup_singleton_eq.
  - rewrite lookup_union_r; [reflexivity|].
    apply lookup_singleton_ne. congruence.
Qed.

(** X12. The retry chain keeps itself going while the count stays below
    1023 (and is absent or an integer above [- float_int_limit]): the
    message one invocation republishes has the notice's instance, group,
    hook and transition fields, so as the next event it is again a
    terminating notice with its fields; handled against the same cluster
    state, with tasks still left, it is republished with the count raised
    once more and the same resolved reference. *)
Theorem X12_republished_message_retries_again
    (event : sns_record) h h' id asg hook s arn rc subscription topic :
  Message event !! "EC2InstanceId" = Some id ->
  Message event !! "AutoScalingGroupName" = Some asg ->
  Message event !! "LifecycleHookName" = Some hook ->
  Message event !! "LifecycleTransition" = Some (VStr s) ->
  Str.contains terminating_marker s = true ->
  res (container_instance_task_status env id ∅)
    = Ok (1, Some {[ "container_instance_id" := VStr arn ]}) ->
  current_retry_count (Message event) = Some rc ->
  - float_int_limit < rc < 1023 ->
  let merged := {[ "container_instance_id" := VStr arn ]} ∪ Message event in
  let body := with_retry_count (rc + 1) merged in
  List.filter is_publish (events (lambda_handler env event h)) =
    [SNS_publish (TopicArn event) body retry_subject]
  /\ (body !! "EC2InstanceId" = Some id
      /\ body !! "AutoScalingGroupName" = Some asg
      /\ body !! "LifecycleHookName" = Some hook
      /\ body !! "LifecycleTransition" = Some (VStr s)
      /\ body !! "container_instance_id" = Some (VStr arn))
  /\ List.filter is_publish
       (events (lambda_handler env (mkRecord body subscription topic) h')) =
       [SNS_publish topic (with_retry_count (rc + 2) merged) retry_subject].
Proof.
  intros Hid Hasg Hhook Htr Hmark Hcheck Hrc Hlt merged body.
  pose proof (emits_container_instance_task_status env id ∅) as Hq.
  apply cluster_query_not_dispatch in Hq as [Hqp _].
  assert (Hfield : forall key, key ≠ "retry_count" -> key ≠ "container_instance_id" ->
                     body !! key = Message event !! key).
  { intros key H1 H2. subst body merged. unfold with_retry_count.
    rewrite lookup_insert_ne by congruence.
    apply lookup_union_r. apply lookup_singleton_ne. congruence. }
  assert (Hid' : body !! "EC2InstanceId" = Some id)
    by (rewrite Hfield by discriminate; exact Hid).
  assert (Hasg' : body !! "AutoScalingGroupName" = Some asg)
    by (rewrite Hfield by discriminate; exact Hasg).
  assert (Hhook' : body !! "LifecycleHookName" = Some hook)
    by (rewrite Hfield by discriminate; exact Hhook).
  assert (Htr' : body !! "LifecycleTransition" = Some (VStr s))
    by (rewrite Hfield by discriminate; exact Htr).
  assert (Href : body !! "container_instance_id" = Some (VStr arn)).
  { subst body merged. unfold with_retry_count.
    rewrite lookup_insert_ne by discriminate.
    apply lookup_union_Some_l. apply lookup_singleton_eq. }
  split; [|split; [auto|]].
  - rewrite (lambda_handler_terminating event h id asg hook s Hid Hasg Hhook Htr Hmark).
    cbv zeta. rewrite Hcheck. cbn [Z.eqb Pos.eqb].
    destruct (sleep_time_total rc (randint_0_1000 env) ltac:(lia)) as [t Ht].
    rewrite (publish_to_sns_ok env _ (TopicArn event) _ merged rc t
               (lookup_insert_eq _ _ _)
               (eq_trans (current_retry_count_merge arn _) Hrc) Ht).
    cbn [res store events]. rewrite !List.filter_app, Hqp. reflexivity.
  - rewrite (lambda_handler_terminating (mkRecord body subscription topic) h'
               id asg hook s Hid' Hasg' Hhook' Htr' Hmark).
    cbv zeta. rewrite Hcheck. cbn [Z.eqb Pos.eqb Message TopicArn].
    destruct (sleep_time_total (rc + 1) (randint_0_1000 env) ltac:(lia)) as [t Ht].
    assert (Hrc' : current_retry_count
                     ({[ "container_instance_id" := VStr arn ]} ∪ body)
                   = Some (rc + 1)).
    { rewrite current_retry_count_merge. subst body.
      unfold current_retry_count, with_retry_count.
      rewrite lookup_insert_eq. reflexivity. }
    rewrite (publish_to_sns_ok env _ topic _ _ (rc + 1) t
               (lookup_insert_eq _ _ _) Hrc' Ht).
    cbn [res store events]. rewrite !List.filter_app, Hqp.
    subst body merged. rewrite merge_reference_again.
    unfold with_retry_count. rewrite insert_insert_eq.
    replace (rc + 1 + 1) with (rc + 2) by lia. reflexivity.
Qed.

(** X13. A message without [EC2InstanceId], or with it and without
    [AutoScalingGroupName], makes the handler raise [KeyError] for that key
    before it logs or calls anything, whatever else the message holds. *)
Theorem X13_missing_instance_or_group_key (event : sns_record) h :
  (Message event !! "EC2InstanceId" = None ->
   res (lambda_handler env event h) = Raise (KeyError "EC2InstanceId")
   /\ events (lambda_handler env event h) = [])
  /\ (is_Some (Message event !! "EC2InstanceId") ->
      Message event !! "AutoScalingGroupName" = None ->
      res (lambda_handler env event h) = Raise (KeyError "AutoScalingGroupName")
      /\ events (lambda_handler env event h) = []).
Proof.
  split.
  - intros Hnone.
    change (wp (lambda_handler env event) h
              (fun r _ evs => r = Raise (KeyError "EC2InstanceId") /\ evs = [])).
    unfold lambda_handler.
    do 2 wp_step. wp_step. eapply wp_deref; [apply lookup_insert_eq|].
    do 2 wp_step. unfold getitem. rewrite Hnone. split; reflexivity.
  - intros [id Hid] Hnone.
    change (wp (lambda_handler env event) h
              (fun r _ evs => r = Raise (KeyError "AutoScalingGroupName") /\ evs = [])).
    unfold lambda_handler.
    do 2 wp_step. wp_step. eapply wp_deref; [apply lookup_insert_eq|].
    do 2 wp_step. unfold getitem. rewrite Hid.
    do 2 wp_step. rewrite Hnone. split; reflexivity.
Qed.

(** X14. A message with its instance and group fields that is not a
    terminating notice: without [LifecycleTransition] the handler returns
    normally after one log line; with a transition text that lacks the
    marker it returns normally after two; with a [LifecycleTransition] that
    is not a string it raises [AttributeError] after the same two. *)
Theorem X14_other_events_outcome (event : sns_record) h id asg :
  Message event !! "EC2InstanceId" = Some id ->
  Message event !! "AutoScalingGroupName" = Some asg ->
  let o := lambda_handler env event h in
  let received := Log "DEBUG" "Lambda received event" in
  let transition :=
    Log "INFO" "message autoscaling {message['LifecycleTransition']}" in
  (Message event !! "LifecycleTransition" = None ->
   res o = Ok tt /\ events o = [received])
  /\ (forall s,
        Message event !! "LifecycleTransition" = Some (VStr s) ->
        Str.contains terminating_marker s = false ->
        res o = Ok tt /\ events o = [received; transition])
  /\ (forall v,
        Message event !! "LifecycleTransition" = Some v ->
        (forall s, v ≠ VStr s) ->
        res o = Raise AttributeError /\ events o = [received; transition]).
Proof.
  intros Hid Hasg o received transition. subst o received transition.
  split; [|split].
  - intros Hnone.
    match goal with
    | |- _ = ?R /\ _ = ?X =>
        change (wp (lambda_handler env event) h (fun r _ evs => r = R /\ evs = X))
    end.
    unfold lambda_handler.
    do 2 wp_step. wp_step. eapply wp_deref; [apply lookup_insert_eq|].
    do 2 wp_step. unfold getitem. rewrite Hid. do 2 wp_step. rewrite Hasg.
    do 2 wp_step. rewrite Hnone. wp_step. split; reflexivity.
  - intros s Htr Hmark.
    match goal with
    | |- _ = ?R /\ _ = ?X =>
        change (wp (lambda_handler env event) h (fun r _ evs => r = R /\ evs = X))
    end.
    unfold lambda_handler.
    do 2 wp_step. wp_step. eapply wp_deref; [apply lookup_insert_eq|].
    do 2 wp_step. unfold getitem. rewrite Hid. do 2 wp_step. rewrite Hasg.
    do 2 wp_step. rewrite Htr. do 2 wp_step. do 2 wp_step.
    cbn [find_terminating]. rewrite StrFacts.find_gt_contains.
    fold terminating_marker. rewrite Hmark. wp_step. split; reflexivity.
  - intros v Htr Hnot.
    match goal with
    | |- _ = ?R /\ _ = ?X =>
        change (wp (lambda_handler env event) h (fun r _ evs => r = R /\ evs = X))
    end.
    unfold lambda_handler.
    do 2 wp_step. wp_step. eapply wp_deref; [apply lookup_insert_eq|].
    do 2 wp_step. unfold getitem. rewrite Hid. do 2 wp_step. rewrite Hasg.
    do 2 wp_step. rewrite Htr. do 2 wp_step. do 2 wp_step.
    destruct v as [| | |s| | |]; try (split; reflexivity).
    exfalso. apply (Hnot s). reflexivity.
Qed.

(** X15. When the completion is accepted the handler returns normally, its
    last effect being the log line of the completion; its client calls are
    those of the status check followed by the one completion call, made
    with the hook, group and instance of the notice. *)
Theorem X15_accepted_completion_returns
    (event : sns_record) h id asg hook s tmp_msg_append :
  Message event !! "EC2InstanceId" = Some id ->
  Message event !! "AutoScalingGroupName" = Some asg ->
  Message event !! "LifecycleHookName" = Some hook ->
  Message event !! "LifecycleTransition" = Some (VStr s) ->
  Str.contains terminating_marker s = true ->
  res (container_instance_task_status env id ∅) = Ok (0, tmp_msg_append) ->
  asg_complete_lifecycle_action env hook asg "CONTINUE" id = inr tt ->
  let o := lambda_handler env event h in
  res o = Ok tt
  /\ api_calls (events o) =
       (api_calls (events (container_instance_task_status env id ∅))
          ++ [ASG_complete_lifecycle_action hook asg "CONTINUE" id])%list
  /\ last (events o) = Some (Log "INFO" "Completed lifecycle hook action.").
Proof.
  intros Hid Hasg Hhook Htr Hmark Hcheck Haccepted o. subst o.
  rewrite (lambda_handler_terminating event h id asg hook s Hid Hasg Hhook Htr Hmark).
  cbv zeta. rewrite Hcheck. cbn [Z.eqb].
  unfold complete_lifecycle, bind. cbn [emit res store events].
  rewrite Haccepted. cbn [log emit res store events].
  rewrite !api_calls_app, !last_app. repeat split; reflexivity.
Qed.

End HandlerMore.


(** ** More on the cluster resolver *)

Section ResolverMore.

Lemma forallb_rev {A} (f : A -> bool) (l : list A) :
  forallb f (rev l) = forallb f l.
Proof.
  induction l as [|a l IH]; [reflexivity|].
  cbn [rev forallb]. rewrite forallb_app, IH. cbn [forallb].
  rewrite andb_true_r. apply andb_comm.
Qed.

Lemma no_space_of_list (l : list ascii) :
  no_space (string_of_list_ascii l) = forallb (fun c => negb (Str.isspace c)) l.
Proof.
  induction l as [|c l IH]; [reflexivity|].
  cbn [string_of_list_ascii no_space forallb]. rewrite IH. reflexivity.
Qed.

(** The tokens of [s.split()] hold no whitespace. *)
Lemma split_go_no_space (s : string) (cur : list ascii) :
  forallb (fun c => negb (Str.isspace c)) cur = true ->
  Forall (fun t => no_space t = true) (Str.split_go cur s).
Proof.
  revert cur. induction s as [|c s IH]; intros cur Hcur; cbn [Str.split_go].
  - destruct cur as [|a cur]; [constructor|].
    repeat constructor. rewrite no_space_of_list, forallb_rev. exact Hcur.
  - destruct (Str.isspace c) eqn:Hc.
    + destruct cur as [|a cur]; [apply IH; reflexivity|].
      constructor; [|apply IH; reflexivity].
      rewrite no_space_of_list, forallb_rev. exact Hcur.
    + apply IH. cbn [forallb]. rewrite Hc, Hcur. reflexivity.
Qed.

Lemma split_no_space (s : string) :
  Forall (fun t => no_space t = true) (Str.split s).
Proof. apply split_go_no_space. reflexivity. Qed.

Lemma no_space_after_sep (sep : ascii) (s : string) :
  no_space s = true -> no_space (after_sep sep s) = true.
Proof.
  induction s as [|c s IH]; [reflexivity|].
  cbn [no_space after_sep]. intros H. apply andb_prop in H as [_ Hs].
  destruct (Ascii.eqb c sep); auto.
Qed.

Lemma no_space_before_sep (sep : ascii) (s : string) :
  no_space s = true -> no_space (before_sep sep s) = true.
Proof.
  induction s as [|c s IH]; [reflexivity|].
  cbn [no_space before_sep]. intros H. apply andb_prop in H as [Hc Hs].
  destruct (Ascii.eqb c sep); [reflexivity|].
  cbn [no_space]. rewrite Hc, (IH Hs). reflexivity.
Qed.

Lemma before_sep_has_no_sep (sep : ascii) (s : string) :
  Str.has_char sep (before_sep sep s) = false.
Proof.
  induction s as [|c s IH]; [reflexivity|].
  cbn [before_sep]. destruct (Ascii.eqb c sep) eqn:Hc; [reflexivity|].
  cbn [Str.has_char]. rewrite Hc, IH. reflexivity.
Qed.

(** The shape of a name the scan ends with. *)
Lemma cluster_name_of_userdata_shape (userdata_decoded : string) h name :
  res (cluster_name_of_userdata userdata_decoded h) = Ok name ->
  no_space name = true /\ Str.has_char "=" name = false.
Proof.
  intros Hname.
  destruct (tokens_all_assign_or_not (Str.split userdata_decoded)) as [Hall|Hbad].
  - rewrite (cluster_name_of_userdata_ok userdata_decoded h Hall) in Hname.
    injection Hname as <-.
    destruct (last _) as [t|] eqn:Hlast; [|split; reflexivity].
    apply last_Some_elem_of in Hlast as Hin.
    apply list_elem_of_filter in Hin as [_ Hin].
    pose proof (split_no_space userdata_decoded) as Hwords.
    rewrite Forall_forall in Hwords. specialize (Hwords t Hin).
    unfold assigned. split.
    + apply no_space_before_sep, no_space_after_sep. exact Hwords.
    + apply before_sep_has_no_sep.
  - unfold cluster_name_of_userdata in Hname.
    rewrite (scan_tokens_raise _ _ _ Hbad) in Hname. discriminate Hname.
Qed.

(** Where the last marker token sits among the tokens: nothing after it
    mentions the marker; without one, no token does. *)
Lemma last_marker_split (toks : list string) :
  match last (filter (fun t => mentions_cluster t = true) toks) with
  | Some token =>
      exists before after,
        toks = (before ++ token :: after)%list
        /\ mentions_cluster token = true
        /\ Forall (fun t => mentions_cluster t = false) after
  | None => Forall (fun t => mentions_cluster t = false) toks
  end.
Proof.
  induction toks as [|a toks IH]; [constructor|].
  rewrite filter_cons.
  destruct (decide (mentions_cluster a = true)) as [Ha|Ha].
  - rewrite last_cons.
    destruct (last (filter _ toks)) as [token|].
    + destruct IH as (before & after & -> & Hm & Hafter).
      exists (a :: before), after. repeat split; assumption.
    + exists [], toks. repeat split; assumption.
  - destruct (last (filter _ toks)) as [token|].
    + destruct IH as (before & after & -> & Hm & Hafter).
      exists (a :: before), after. repeat split; assumption.
    + constructor; [|exact IH]. destruct (mentions_cluster a); congruence.
Qed.

(** Where a name the scan ends with comes from. *)
Lemma cluster_name_of_userdata_origin (userdata_decoded : string) h name :
  res (cluster_name_of_userdata userdata_decoded h) = Ok name ->
  (name = "default"
   /\ Forall (fun t => mentions_cluster t = false) (Str.split userdata_decoded))
  \/ (exists before token after,
        Str.split userdata_decoded = (before ++ token :: after)%list
        /\ mentions_cluster token = true
        /\ Forall (fun t => mentions_cluster t = false) after
        /\ name = assigned token).
Proof.
  intros Hname.
  destruct (tokens_all_assign_or_not (Str.split userdata_decoded)) as [Hall|Hbad].
  - rewrite (cluster_name_of_userdata_ok userdata_decoded h Hall) in Hname.
    injection Hname as <-.
    pose proof (last_marker_split (Str.split userdata_decoded)) as Hlast.
    destruct (last _) as [token|].
    + right. destruct Hlast as (before & after & Htoks & Hm & Hafter).
      exists before, token, after. repeat split; assumption.
    + left. split; [reflexivity|exact Hlast].
  - unfold cluster_name_of_userdata in Hname.
    rewrite (scan_tokens_raise _ _ _ Hbad) in Hname. discriminate Hname.
Qed.

Variable env : Env.

(** X16. A cluster name the resolver returns holds no whitespace and no
    ['=']. The instance's user data was read, and the name is "default"
    when no word of the user data mentions [ECS_CLUSTER]; otherwise it is
    what the last such word holds between its first and its second ['=']
    (to its end, if it has one ['=']). *)
Theorem X16_cluster_name_is_one_word (ec2_instance_id : value) h name :
  res (get_ecs_cluster_name env ec2_instance_id h) = Ok name ->
  no_space name = true
  /\ Str.has_char "=" name = false
  /\ exists userdata,
       ec2_describe_instance_attribute env ec2_instance_id = inr userdata
       /\ ((name = "default"
            /\ Forall (fun t => mentions_cluster t = false)
                      (Str.split (default "" userdata)))
           \/ (exists before token after,
                 Str.split (default "" userdata) = (before ++ token :: after)%list
                 /\ mentions_cluster token = true
                 /\ Forall (fun t => mentions_cluster t = false) after
                 /\ name = assigned token)).
Proof.
  unfold get_ecs_cluster_name, bind, call, bind.
  cbn [emit res store events].
  destruct (ec2_describe_instance_attribute env ec2_instance_id) as [e|userdata];
    cbn [raise ret res store events]; [discriminate|].
  destruct (res (cluster_name_of_userdata (default "" userdata) h)) as [name'|e] eqn:Hres;
    [|discriminate].
  intros [= <-].
  destruct (cluster_name_of_userdata_shape _ _ _ Hres) as [Hspace Heq].
  split; [exact Hspace|]. split; [exact Heq|].
  exists userdata. split; [reflexivity|].
  exact (cluster_name_of_userdata_origin _ _ _ Hres).
Qed.

(** X17. An instance booted without user data, or with user data none of
    whose words mentions the marker, is looked for in the cluster named
    "default": that is the cluster whose instances the status check
    lists. *)
Theorem X17_default_cluster_is_listed (ec2_instance_id : value) h userdata :
  ec2_describe_instance_attribute env ec2_instance_id = inr userdata ->
  Forall (fun t => mentions_cluster t = false) (Str.split (default "" userdata)) ->
  res (get_ecs_cluster_name env ec2_instance_id h) = Ok "default"
  /\ events (get_ecs_cluster_name env ec2_instance_id h) =
       [EC2_describe_instance_attribute ec2_instance_id "userData"]
  /\ ECS_list_container_instances "default"
       ∈ events (container_instance_task_status env ec2_instance_id h).
Proof.
  intros Hud Hnone.
  assert (Hscan : forall toks c h0,
             Forall (fun t => mentions_cluster t = false) toks ->
             scan_tokens toks c h0 = mkOutcome (Ok c) h0 []).
  { induction 1 as [|t l Ht _ IH]; [reflexivity|].
    cbn [scan_tokens]. unfold mentions_cluster in Ht. rewrite Ht. exact IH. }
  assert (Hrun : forall h0, get_ecs_cluster_name env ec2_instance_id h0 =
             mkOutcome (Ok "default") h0
               [EC2_describe_instance_attribute ec2_instance_id "userData"]).
  { intros h0. apply run_eq. unfold get_ecs_cluster_name, cluster_name_of_userdata.
    do 2 wp_step. rewrite Hud.
    eapply wp_eq; [apply Hscan; exact Hnone|]. repeat split. }
  rewrite Hrun. cbn [res events]. split; [reflexivity|]. split; [reflexivity|].
  unfold container_instance_task_status. unfold bind at 1. rewrite Hrun.
  cbn [res store events]. right.
  unfold bind at 1, call, bind. cbn [emit res store events].
  destruct (ecs_list_container_instances env "default"); cbn [raise ret res events];
    [left|].
  match goal with
  | |- context [match res ?X with _ => _ end] => destruct (res X)
  end; cbn [events]; left.
Qed.

End ResolverMore.

(** ** The properties at the sample inputs *)

Module Witness.

Import Sample.


Lemma C2_witness :
  exists t,
    events (publish_to_sns (env userdata [] (inr tt)) 1%positive topic
              {[ 1%positive := with_retry_count 3 notice ]}) =
      [Log "INFO" "Sleeping for {sleep_time}"; Sleep t;
       Log "DEBUG" "Publish to SNS topic {topic_arn}";
       SNS_publish topic (with_retry_count (3 + 1) (with_retry_count 3 notice))
         retry_subject]
    /\ (t == Qmin (inject_Z (2 ^ 3) + inject_Z 337 / 1000) 30)%Q
    /\ (3 <= 4 -> (inject_Z (2 ^ 3) <= t)%Q /\ (t <= inject_Z (2 ^ 3) + 1)%Q)
    /\ (5 <= 3 -> (t == 30)%Q).
Proof.
  apply (C2_backoff_delay_is_capped_sum (env userdata [] (inr tt)) 1%positive topic
           {[ 1%positive := with_retry_count 3 notice ]}
           (with_retry_count 3 notice) 3).
  - reflexivity.
  - reflexivity.
  - lia.
  - cbn. lia.
Defined.

(** The initial notice has no count: it is republished once, with count 2;
    a message at count 3 is republished with count 4. *)
Lemma C3_witness :
  List.filter is_publish
    (events (publish_to_sns (env userdata [] (inr tt)) 1%positive topic
               {[ 1%positive := notice ]})) =
    [SNS_publish topic (<["retry_count" := VInt 2]> notice) retry_subject]
  /\ List.filter is_publish
       (events (publish_to_sns (env userdata [] (inr tt)) 1%positive topic
                  {[ 1%positive := with_retry_count 3 notice ]})) =
       [SNS_publish topic
          (<["retry_count" := VInt (3 + 1)]> (with_retry_count 3 notice))
          retry_subject].
Proof.
  split.
  - destruct (C3_republish_increments_retry_count (env userdata [] (inr tt))
                1%positive topic {[ 1%positive := notice ]} notice)
      as [_ Hpublished]; [reflexivity|].
    specialize (Hpublished (VInt 2)).
    assert (Hcount : notice !! "retry_count" = None) by reflexivity.
    rewrite Hcount in Hpublished.
    apply Hpublished; constructor.
  - destruct (C3_republish_increments_retry_count (env userdata [] (inr tt))
                1%positive topic {[ 1%positive := with_retry_count 3 notice ]}
                (with_retry_count 3 notice))
      as [_ Hpublished]; [reflexivity|].
    specialize (Hpublished (VInt (3 + 1))).
    assert (Hcount : with_retry_count 3 notice !! "retry_count" = Some (VInt 3))
      by reflexivity.
    rewrite Hcount in Hpublished.
    apply Hpublished; constructor. split; reflexivity.
Defined.

(** An instance the cluster manager does not track. *)
Lemma C4_witness :
  let o := container_instance_task_status (env userdata [] (inr tt)) (VStr "i-gone") ∅ in
  Forall (fun e => is_update_state e = false /\ is_list_tasks e = false) (events o)
  /\ res o = Ok (0, None).
Proof.
  destruct (C4_untracked_instance_zero_tasks
              (env userdata [] (inr tt)) (VStr "i-gone") ∅) as (Hev & _ & Hret).
  - intros cluster arns l [= <-]. repeat constructor.
  - split; [exact Hev|].
    apply (Hret (Some userdata) "prod-cluster" ["arn:ci/0"; "arn:ci/1"] instances);
      reflexivity.
Defined.

(** A message of another kind: no [LifecycleTransition]. *)
Lemma C5_witness :
  Forall (fun e => is_log e = true)
    (events (lambda_handler (env userdata [] (inr tt))
               (event (delete "LifecycleTransition" notice)) ∅)).
Proof.
  apply C5_other_events_no_api_call.
  intros s Hs. vm_compute in Hs. discriminate Hs.
Defined.

(** The completion is refused: the hook was completed already. *)
Lemma C7_witness :
  let o := lambda_handler (env userdata [] (inl (ClientError "ValidationError")))
             (event notice) ∅ in
  res o = Ok tt
  /\ List.filter is_completion (events o) =
       [ASG_complete_lifecycle_action (VStr "hook-1") (VStr "asg-1") "CONTINUE" (VStr "i-1")]
  /\ List.filter is_publish (events o) = []
  /\ last (events o) = Some (Log "ERROR" "error").
Proof.
  refine (proj1 (C7_completion_client_error_swallowed
            (env userdata [] (inl (ClientError "ValidationError"))) (event notice) ∅
            (VStr "i-1") (VStr "asg-1") (VStr "hook-1") marker (Some reference)
            eq_refl eq_refl eq_refl eq_refl eq_refl _) "ValidationError" eq_refl).
  vm_compute. reflexivity.
Defined.

Lemma C8_witness :
  let o := publish_to_sns (env userdata [] (inr tt)) 1%positive topic
             {[ 1%positive := notice ]} in
  store o !! 1%positive = Some (with_retry_count (1 + 1) notice)
  /\ store o !! 1%positive ≠ Some notice
  /\ List.filter is_publish (events o) =
       [SNS_publish topic (with_retry_count (1 + 1) notice) retry_subject]
  /\ (forall l, l ≠ 1%positive ->
                store o !! l = ({[ 1%positive := notice ]} : gmap loc dict) !! l).
Proof.
  apply (C8_message_updated_in_place (env userdata [] (inr tt)) 1%positive topic
           {[ 1%positive := notice ]} notice 1).
  - reflexivity.
  - reflexivity.
  - split; reflexivity.
Defined.

(** The user data with the comment: the resolver and the status check raise. *)
Lemma C9_witness :
  res (get_ecs_cluster_name (env userdata_with_comment [] (inr tt)) (VStr "i-1") ∅)
    = Raise IndexError
  /\ res (container_instance_task_status (env userdata_with_comment [] (inr tt))
            (VStr "i-1") ∅)
    = Raise IndexError
  /\ res (lambda_handler (env userdata_with_comment [] (inr tt)) (event notice) ∅)
    = Raise IndexError.
Proof.
  destruct (C9_marker_without_equals_raises_last_token_wins
              (env userdata_with_comment [] (inr tt)) (VStr "i-1") ∅
              (Some userdata_with_comment) eq_refl) as [Hraise _].
  destruct Hraise as (Hresolver & Hcheck & Hhandler).
  - exists "ECS_CLUSTER". split; [|split; reflexivity].
    vm_compute. do 3 right. left.
  - split; [exact Hresolver|]. split; [exact Hcheck|].
    apply (Hhandler (event notice) (VStr "asg-1") (VStr "hook-1") marker);
      reflexivity.
Defined.

(** A terminating notice that lost its hook name. *)
Lemma C10_witness :
  let o := lambda_handler (env userdata ["task/1"] (inr tt))
             (event (delete "LifecycleHookName" notice)) ∅ in
  res o = Raise (KeyError "LifecycleHookName")
  /\ Forall (fun e => is_log e = true) (events o).
Proof.
  destruct (C10_missing_hook_name_raises_before_calls
              (env userdata ["task/1"] (inr tt))
              (event (delete "LifecycleHookName" notice)) ∅ marker)
    as (_ & Hev & Hkey); [reflexivity..|].
  split; [|exact Hev].
  apply Hkey; eexists; reflexivity.
Defined.

End Witness.

(** ** The further properties at the sample inputs *)

Module WitnessMore.

Import Sample.

Import Faulty.

(** A count far below the least subnormal, with the sample draw. *)
Lemma X1_witness :
  exists t,
    List.filter is_sleep
      (events (publish_to_sns sample_env 1%positive topic
                 {[ 1%positive := with_retry_count (-2000) notice ]})) = [Sleep t]
    /\ (0 <= t)%Q /\ (t <= 30)%Q
    /\ (-1074 <= -2000 \/ 0 < randint_0_1000 sample_env -> (0 < t)%Q).
Proof.
  apply (X1_sleep_between_0_and_30 sample_env 1%positive topic
           {[ 1%positive := with_retry_count (-2000) notice ]}
           (with_retry_count (-2000) notice) (-2000)).
  - reflexivity.
  - reflexivity.
  - split; reflexivity.
  - split; discriminate.
Defined.

Lemma X2_witness :
  exists t t',
    sleep_time 2 500 = Ok t /\ sleep_time 7 500 = Ok t' /\ (t <= t')%Q.
Proof.
  eexists. eexists. split; [reflexivity|]. split; [reflexivity|].
  apply (X2_sleep_time_monotone 2 7 500); [lia|reflexivity|reflexivity].
Defined.


Lemma X4_witness :
  let o := publish_to_sns Faulty.publish_fails 1%positive topic
             {[ 1%positive := notice ]} in
  res o = Raise (ClientError "Throttled")
  /\ List.filter is_publish (events o) =
       [SNS_publish topic (with_retry_count (1 + 1) notice) retry_subject]
  /\ length (List.filter is_sleep (events o)) = 1%nat
  /\ store o !! 1%positive = Some (with_retry_count (1 + 1) notice).
Proof.
  apply (X4_publish_failure_after_update Faulty.publish_fails 1%positive topic
           {[ 1%positive := notice ]} notice 1 (ClientError "Throttled")).
  - reflexivity.
  - reflexivity.
  - split; reflexivity.
  - reflexivity.
Defined.

Lemma X5_witness :
  api_calls (events (container_instance_task_status sample_env (VStr "i-1") ∅)) =
    [EC2_describe_instance_attribute (VStr "i-1") "userData";
     ECS_list_container_instances "prod-cluster";
     ECS_describe_container_instances "prod-cluster" arns;
     ECS_update_container_instances_state "prod-cluster" ["arn:ci/1"] "DRAINING";
     ECS_list_tasks "prod-cluster" "arn:ci/1"].
Proof.
  apply (X5_status_check_call_sequence sample_env (VStr "i-1") ∅
           (Some userdata) "prod-cluster" arns instances).
  - reflexivity.
  - reflexivity.
  - reflexivity.
  - reflexivity.
  - intros ci _ _ _. reflexivity.
Defined.

Lemma X6_witness :
  let o := container_instance_task_status Faulty.refusing_drain (VStr "i-1") ∅ in
  res o = Raise (ClientError "InvalidParameterException")
  /\ api_calls (events o) =
       [EC2_describe_instance_attribute (VStr "i-1") "userData";
        ECS_list_container_instances "prod-cluster";
        ECS_describe_container_instances "prod-cluster" arns;
        ECS_update_container_instances_state "prod-cluster" ["arn:ci/1"] "DRAINING"].
Proof.
  apply (X6_refused_transition_propagates Faulty.refusing_drain (VStr "i-1") ∅
           (Some userdata) "prod-cluster" arns
           [mkCI "i-0" "arn:ci/0" "ACTIVE"] i1 []
           (ClientError "InvalidParameterException")).
  - reflexivity.
  - reflexivity.
  - reflexivity.
  - reflexivity.
  - intros ci' Hin Hmatch _. apply list_elem_of_In in Hin as [<-|[]].
    vm_compute in Hmatch. discriminate Hmatch.
  - reflexivity.
  - reflexivity.
Defined.

Lemma X7_witness :
  container_instance_task_status Faulty.no_inventory (VStr "i-1") ∅ =
    mkOutcome (Raise (ClientError "InvalidInstanceID.NotFound")) ∅
      [EC2_describe_instance_attribute (VStr "i-1") "userData"].
Proof.
  apply (proj1 (X7_lookup_failures_propagate Faulty.no_inventory (VStr "i-1") ∅)).
  reflexivity.
Defined.

Lemma X8_witness :
  let o := lambda_handler Faulty.no_inventory (event notice) ∅ in
  res o = Raise (ClientError "InvalidInstanceID.NotFound")
  /\ List.filter is_publish (events o) = []
  /\ List.filter is_completion (events o) = []
  /\ List.filter is_sleep (events o) = []
  /\ store o !! fresh (dom (∅ : gmap loc dict)) = Some notice.
Proof.
  apply (X8_status_check_failure_propagates Faulty.no_inventory (event notice) ∅
           (VStr "i-1") (VStr "asg-1") (VStr "hook-1") marker
           (ClientError "InvalidInstanceID.NotFound"));
    reflexivity.
Defined.

Lemma X9_witness :
  let gone := <["EC2InstanceId" := VStr "i-gone"]> notice in
  let o := lambda_handler sample_env (event gone) ∅ in
  api_calls (events o) =
    [EC2_describe_instance_attribute (VStr "i-gone") "userData";
     ECS_list_container_instances "prod-cluster";
     ECS_describe_container_instances "prod-cluster" arns;
     ASG_complete_lifecycle_action (VStr "hook-1") (VStr "asg-1") "CONTINUE"
       (VStr "i-gone")]
  /\ List.filter is_sleep (events o) = []
  /\ store o !! fresh (dom (∅ : gmap loc dict)) = Some gone.
Proof.
  destruct (X9_untracked_instance_completes_at_once sample_env
              (event (<["EC2InstanceId" := VStr "i-gone"]> notice)) ∅
              (VStr "i-gone") (VStr "asg-1") (VStr "hook-1") marker
              (Some userdata) "prod-cluster" arns instances)
    as (Hcalls & Hsleep & Hstore); try reflexivity.
  - repeat constructor.
  - split; [exact Hcalls|]. split; [exact Hsleep|exact Hstore].
Defined.

Lemma X10_witness :
  let o := lambda_handler Faulty.publish_fails (event notice) ∅ in
  res o = Raise (ClientError "Throttled")
  /\ List.filter is_publish (events o) =
       [SNS_publish topic (with_retry_count (1 + 1) (reference ∪ notice))
          retry_subject]
  /\ List.filter is_completion (events o) = [].
Proof.
  apply (X10_publish_failure_propagates Faulty.publish_fails (event notice) ∅
           (VStr "i-1") (VStr "asg-1") (VStr "hook-1") marker reference 1
           (ClientError "Throttled"));
    first [reflexivity | split; reflexivity].
Defined.

Lemma X11_witness :
  exists t,
    List.filter (fun e => is_sleep e || is_publish e)
      (events (lambda_handler sample_env (event notice) ∅)) =
      [Sleep t;
       SNS_publish topic (with_retry_count (1 + 1) (reference ∪ notice))
         retry_subject].
Proof.
  destruct (X11_sleep_only_before_republish sample_env (event notice) ∅
              (VStr "i-1") (VStr "asg-1") (VStr "hook-1") marker)
    as [Hretry _]; try reflexivity.
  apply (Hretry reference 1); [reflexivity|reflexivity|split; reflexivity].
Defined.

Lemma X12_witness :
  let body := with_retry_count 2 (reference ∪ notice) in
  List.filter is_publish (events (lambda_handler sample_env (event notice) ∅)) =
    [SNS_publish topic body retry_subject]
  /\ List.filter is_publish (events (lambda_handler sample_env (event body) ∅)) =
       [SNS_publish topic (with_retry_count 3 (reference ∪ notice)) retry_subject].
Proof.
  destruct (X12_republished_message_retries_again sample_env (event notice) ∅ ∅
              (VStr "i-1") (VStr "asg-1") (VStr "hook-1") marker "arn:ci/1" 1
              "arn:aws:sns:subscription" topic)
    as (Hfirst & _ & Hnext); try reflexivity.
  - split; reflexivity.
  - split; [exact Hfirst|exact Hnext].
Defined.

Lemma X13_witness :
  res (lambda_handler sample_env (event (delete "EC2InstanceId" notice)) ∅)
    = Raise (KeyError "EC2InstanceId")
  /\ events (lambda_handler sample_env (event (delete "EC2InstanceId" notice)) ∅)
    = [].
Proof.
  apply (proj1 (X13_missing_instance_or_group_key sample_env
                  (event (delete "EC2InstanceId" notice)) ∅)).
  reflexivity.
Defined.

Lemma X14_witness :
  let o := lambda_handler sample_env
             (event (delete "LifecycleTransition" notice)) ∅ in
  res o = Ok tt /\ events o = [Log "DEBUG" "Lambda received event"].
Proof.
  destruct (X14_other_events_outcome sample_env
              (event (delete "LifecycleTransition" notice)) ∅
              (VStr "i-1") (VStr "asg-1")) as [Habsent _]; try reflexivity.
  apply Habsent. reflexivity.
Defined.

Lemma X15_witness :
  let o := lambda_handler (env userdata [] (inr tt)) (event notice) ∅ in
  res o = Ok tt
  /\ api_calls (events o) =
       (api_calls (events (container_instance_task_status
                             (env userdata [] (inr tt)) (VStr "i-1") ∅))
          ++ [ASG_complete_lifecycle_action (VStr "hook-1") (VStr "asg-1")
                "CONTINUE" (VStr "i-1")])%list
  /\ last (events o) = Some (Log "INFO" "Completed lifecycle hook action.").
Proof.
  apply (X15_accepted_completion_returns (env userdata [] (inr tt)) (event notice) ∅
           (VStr "i-1") (VStr "asg-1") (VStr "hook-1") marker (Some reference));
    reflexivity.
Defined.

Lemma X16_witness :
  no_space "prod-cluster" = true
  /\ Str.has_char "=" "prod-cluster" = false
  /\ exists userdata,
       ec2_describe_instance_attribute sample_env (VStr "i-1") = inr userdata
       /\ (("prod-cluster" = "default"
            /\ Forall (fun t => mentions_cluster t = false)
                      (Str.split (default "" userdata)))
           \/ (exists before token after,
                 Str.split (default "" userdata) = (before ++ token :: after)%list
                 /\ mentions_cluster token = true
                 /\ Forall (fun t => mentions_cluster t = false) after
                 /\ "prod-cluster" = assigned token)).
Proof.
  apply (X16_cluster_name_is_one_word sample_env (VStr "i-1") ∅ "prod-cluster").
  reflexivity.
Defined.

(** An instance booted without user data. *)
Lemma X17_witness :
  let e := env "" [] (inr tt) in
  res (get_ecs_cluster_name e (VStr "i-1") ∅) = Ok "default"
  /\ events (get_ecs_cluster_name e (VStr "i-1") ∅) =
       [EC2_describe_instance_attribute (VStr "i-1") "userData"]
  /\ ECS_list_container_instances "default"
       ∈ events (container_instance_task_status e (VStr "i-1") ∅).
Proof.
  apply (X17_default_cluster_is_listed (env "" [] (inr tt)) (VStr "i-1") ∅ (Some "")).
  - reflexivity.
  - constructor.
Defined.

End WitnessMore.
